(** * messenger-app-backend: friendship workflow and chat delivery

    A shallow embedding of the Express/Socket.io server of the repository:
    [src/server.js] (direct friend adding, history, chat) and the revision
    of the same server kept in [src/unnamed/part_000] that replaces
    [/add-friend] by the friend-request workflow
    ([/send-friend-request], [/accept-friend-request],
    [/decline-friend-request]).

    Modelling conventions.
    - A PostgreSQL table is the list of its rows in storage order; an
      [INSERT] appends, an [UPDATE] rewrites rows in place, and a [SELECT]
      without [ORDER BY] returns the matching rows in storage order, so
      that [rows[0]] is the first stored match.
    - Columns the statements leave out ([id], [created_at]) are filled by
      the database: ids come from a per-table sequence, timestamps from
      [NOW()], which every handler receives as [now].
    - A JSON field of a request body or of a socket event is an [option]:
      [None] is an absent ([undefined]) field.  User and request ids are
      integers on the wire and in the store; the id of a friend request,
      which the store generates with [gen_random_uuid()], is the next value
      of a sequence: all that is used of it is that it is fresh.
    - The store is available: a statement does not fail, except the
      message insert of the chat handler, whose failure is an input.  *)

From Stdlib Require Import ZArith List Ascii String Bool Lia.
From Stdlib Require Import Permutation Sorted.
Import ListNotations.

Open Scope string_scope.
Open Scope Z_scope.
Open Scope list_scope.

(** ** JavaScript truthiness *)

Class Truthy (A : Type) := truthy : A -> bool.

#[export] Instance truthy_Z : Truthy Z := fun n => negb (n =? 0).
#[export] Instance truthy_string : Truthy string := fun s => negb (s =? "")%string.

(** [present field] is the value of [field] when [!field] is false. *)
Definition present {A} `{Truthy A} (field : option A) : option A :=
  match field with
  | Some v => if truthy v then Some v else None
  | None => None
  end.

(** ** Tables *)

Module User.
Record t := mk
  { id : Z; username : string; password_hash : string; name : string;
    last_login : option Z }.
End User.

Module Friendship.
Record t := mk { user1_id : Z; user2_id : Z }.
End Friendship.

Module FriendRequest.
Record t := mk
  { id : Z; sender_id : Z; receiver_id : Z; status : string;
    created_at : Z; updated_at : Z }.
End FriendRequest.

Module Message.
Record t := mk
  { id : Z; sender_id : Z; receiver_id : Z; content : option string;
    message_type : string; image_data : option string; created_at : Z }.
End Message.

(** Modelled from the spec: the schema of the store (its [CREATE TABLE]
    statements) is not among the sources.  The columns of the four tables
    are those the statements of the handlers name, which are the spec's
    persisted layout: [users(id, username unique, ...)],
    [friend_requests(id, sender_id, receiver_id, status, created_at,
    updated_at)], [friendships(user1_id, user2_id)], [messages(id,
    sender_id, receiver_id, kind, content|image_payload, created_at)].  A
    message has a server-assigned identity and a created timestamp: [id]
    comes from the sequence of the table and [created_at] from [NOW()]. *)
Record database := mkdb
  { users : list User.t;
    friendships : list Friendship.t;
    friend_requests : list FriendRequest.t;
    messages : list Message.t;
    users_seq : Z;
    friend_requests_seq : Z;
    messages_seq : Z }.

Definition with_users (db : database) (l : list User.t) (seq : Z) : database :=
  mkdb l (friendships db) (friend_requests db) (messages db)
       seq (friend_requests_seq db) (messages_seq db).

Definition with_friendships (db : database) (l : list Friendship.t) : database :=
  mkdb (users db) l (friend_requests db) (messages db)
       (users_seq db) (friend_requests_seq db) (messages_seq db).

Definition with_friend_requests (db : database) (l : list FriendRequest.t) (seq : Z)
  : database :=
  mkdb (users db) (friendships db) l (messages db)
       (users_seq db) seq (messages_seq db).

Definition with_messages (db : database) (l : list Message.t) (seq : Z) : database :=
  mkdb (users db) (friendships db) (friend_requests db) l
       (users_seq db) (friend_requests_seq db) seq.

(** ** HTTP responses: [res.status(code).json(body)] *)

Inductive body :=
| error (text : string)
| message (text : string)
| account (id : Z) (username name : string).

Record response := mkres { http_status : Z; json : body }.

Definition internal_server_error : response :=
  mkres 500 (error "Internal server error").

(** ** Queries shared by the handlers *)

(** [SELECT id FROM users WHERE username = $1] *)
Definition select_user_by_username (db : database) (p1 : string) : list User.t :=
  filter (fun u => (User.username u =? p1)%string) (users db).

(** [(a = $1 AND b = $2) OR (a = $2 AND b = $1)] *)
Definition either_direction (a b p1 p2 : Z) : bool :=
  ((a =? p1) && (b =? p2)) || ((a =? p2) && (b =? p1)).

(** [SELECT * FROM friendships WHERE (user1_id = $1 AND user2_id = $2)
    OR (user1_id = $2 AND user2_id = $1)] *)
Definition checkFriendshipQuery (db : database) (p1 p2 : Z) : list Friendship.t :=
  filter (fun f => either_direction (Friendship.user1_id f) (Friendship.user2_id f) p1 p2)
         (friendships db).

(** [rows.length > 0] *)
Definition nonempty {A} (rows : list A) : bool := (0 <? List.length rows)%nat.

(** ** Friends of a user: [GET /friends/:userId]

    [SELECT u.id, u.username, u.name FROM users u JOIN friendships f
     ON (u.id = f.user1_id AND f.user2_id = $1)
     OR (u.id = f.user2_id AND f.user1_id = $1) WHERE u.id != $1] *)
Definition friends (db : database) (userId : Z) : list (Z * string * string) :=
  flat_map (fun u =>
    flat_map (fun f =>
      if (((User.id u =? Friendship.user1_id f) && (Friendship.user2_id f =? userId))
          || ((User.id u =? Friendship.user2_id f) && (Friendship.user1_id f =? userId)))
         && negb (User.id u =? userId)
      then [(User.id u, User.username u, User.name u)]
      else [])
      (friendships db))
    (users db).

(** ** Ordering of result rows: [ORDER BY]

    A stable insertion sort: rows with equal keys keep their storage order. *)
Fixpoint insert_by {A} (le : A -> A -> bool) (x : A) (l : list A) : list A :=
  match l with
  | [] => [x]
  | y :: l' => if le x y then x :: l else y :: insert_by le x l'
  end.

Definition order_by {A} (le : A -> A -> bool) (rows : list A) : list A :=
  fold_right (insert_by le) [] rows.

(** [ASC] and [DESC] on a timestamp column. *)
Definition ascending {A} (key : A -> Z) (a b : A) : bool := key a <=? key b.
Definition descending {A} (key : A -> Z) (a b : A) : bool := key b <=? key a.

(** * [src/server.js] *)

(** ** [POST /register]

    [passwordHash] is the result of [bcrypt.hash]; the unique constraint on
    [users.username] raises error 23505. *)
Definition register (db : database) (passwordHash : string)
    (username password name : option string) : database * response :=
  match present username, present password with
  | Some username, Some _ =>
      if nonempty (select_user_by_username db username)
      then (db, mkres 409 (error "Username already exists"))
      else
        let name := match present name with Some n => n | None => username end in
        let row := User.mk (users_seq db) username passwordHash name None in
        (with_users db (users db ++ [row]) (users_seq db + 1),
         mkres 201 (account (User.id row) (User.username row) (User.name row)))
  | _, _ => (db, mkres 400 (error "Username and password are required"))
  end.

(** ** [POST /login]

    [isMatch] is the result of [bcrypt.compare]. *)
Definition login (db : database) (now : Z) (isMatch : bool)
    (username password : option string) : database * response :=
  match present username, present password with
  | Some username, Some _ =>
      match select_user_by_username db username with
      | [] => (db, mkres 401 (error "Invalid username or password"))
      | user :: _ =>
          if isMatch then
            let touch u :=
              if User.id u =? User.id user
              then User.mk (User.id u) (User.username u) (User.password_hash u)
                           (User.name u) (Some now)
              else u in
            (with_users db (map touch (users db)) (users_seq db),
             mkres 200 (account (User.id user) (User.username user)
                          (match present (Some (User.name user)) with
                           | Some n => n
                           | None => User.username user
                           end)))
          else (db, mkres 401 (error "Invalid username or password"))
      end
  | _, _ => (db, mkres 400 (error "Username and password are required"))
  end.

(** ** [POST /add-friend]

    The handler of [src/server.js] and the one of the token-based revision
    in [src/unnamed/part_000] run the same statements and differ in the
    replies only. *)
Record add_friend_replies := mkreplies
  { required : response; unknown_user : response;
    already_exists : response; added : response }.

Definition add_friend_with (re : add_friend_replies) (db : database)
    (userId : option Z) (friendUsername : option string) : database * response :=
  match present userId, present friendUsername with
  | Some userId, Some friendUsername =>
      match select_user_by_username db friendUsername with
      | [] => (db, unknown_user re)
      | friend :: _ =>
          let friendId := User.id friend in
          if nonempty (checkFriendshipQuery db userId friendId)
          then (db, already_exists re)
          else
            (with_friendships db (friendships db ++ [Friendship.mk userId friendId]),
             added re)
      end
  | _, _ => (db, required re)
  end.

Definition add_friend : database -> option Z -> option string -> database * response :=
  add_friend_with
    (mkreplies (mkres 400 (error "User ID and friend username are required"))
               (mkres 404 (error "Friend username not found"))
               (mkres 409 (error "Friendship already exists"))
               (mkres 201 (message "Friend added successfully"))).

(** [/add-friend] of the token-based revision. *)
Definition add_friend_rev : database -> option Z -> option string -> database * response :=
  add_friend_with
    (mkreplies (mkres 400 (error "userId and friendUsername are required"))
               (mkres 404 (error "User not found"))
               (mkres 400 (error "Friendship already exists"))
               (mkres 200 (message "Friend added successfully"))).

(** ** [GET /messages/:userId/:friendId]

    [SELECT id, sender_id, receiver_id, content, message_type, image_data,
     created_at FROM messages
     WHERE (sender_id = $1 AND receiver_id = $2)
        OR (sender_id = $2 AND receiver_id = $1)
     ORDER BY created_at ASC] *)
Definition in_conversation (userId friendId : Z) (m : Message.t) : bool :=
  either_direction (Message.sender_id m) (Message.receiver_id m) userId friendId.

Definition get_messages (db : database) (userId friendId : Z) : list Message.t :=
  order_by (ascending Message.created_at)
           (filter (in_conversation userId friendId) (messages db)).

(** ** Socket.io: the ['chat message'] event *)

Module ChatEvent.
Record t := mk
  { senderId : option Z; receiverId : option Z; content : option string;
    messageType : option string; imageData : option string }.
End ChatEvent.

(** The process: the store and the ids of the connected sockets. *)
Record server := mksrv { pool : database; sockets : list Z }.

Inductive effect :=
| console_log (text : string)
| console_error (text : string)
| pool_query (inserted : Message.t)
| socket_emit (socket_id : Z) (event : string) (payload : Message.t).

(** [INSERT INTO messages(...) VALUES(...) RETURNING *] *)
Definition insert_message (db : database) (now : Z) (sender receiver : Z)
    (content : option string) (message_type : string) (image_data : option string)
  : database * Message.t :=
  let row := Message.mk (messages_seq db) sender receiver content message_type
                        image_data now in
  (with_messages db (messages db ++ [row]) (messages_seq db + 1), row).

(** [io.emit(event, payload)]: one delivery per connected socket. *)
Definition io_emit (srv : server) (event : string) (payload : Message.t) : list effect :=
  map (fun s => socket_emit s event payload) (sockets srv).

(** [msg.messageType === 'image' && msg.imageData] *)
Definition image_payload (msg : ChatEvent.t) : option string :=
  match ChatEvent.messageType msg with
  | Some ty => if (ty =? "image")%string then present (ChatEvent.imageData msg) else None
  | None => None
  end.

(** The [values] of the [INSERT] the handler prepares: the [content],
    [message_type] and [image_data] columns; [None] when the handler returns
    at ['Text message missing content']. *)
Definition insert_values (msg : ChatEvent.t)
  : option (option string * string * option string) :=
  match image_payload msg with
  | Some imageData => Some (None, "image", Some imageData)
  | None =>
      match present (ChatEvent.content msg) with
      | None => None
      | Some content => Some (Some content, "text", None)
      end
  end.

(** [socket.on('chat message', async (msg) => ...)] on the connection
    [socket]; [store_ok] tells whether [pool.query] resolves (otherwise it
    throws and the [catch] block logs). *)
Definition chat_message (srv : server) (now : Z) (store_ok : bool) (socket : Z)
    (msg : ChatEvent.t) : server * list effect :=
  let received := console_log "Received message:" in
  match present (ChatEvent.senderId msg), present (ChatEvent.receiverId msg) with
  | Some senderId, Some receiverId =>
      match insert_values msg with
      | None => (srv, [received; console_error "Text message missing content"])
      | Some (content, message_type, image_data) =>
          if store_ok then
            let '(db', savedMessage) :=
              insert_message (pool srv) now senderId receiverId content message_type
                             image_data in
            (mksrv db' (sockets srv),
             received :: pool_query savedMessage
               :: io_emit srv "chat message" savedMessage)
          else (srv, [received; console_error "Error saving message to database:"])
      end
  | _, _ => (srv, [received; console_error "Message missing senderId or receiverId"])
  end.

(** * The friend-request revision ([src/unnamed/part_000]) *)

(** ** [POST /send-friend-request] *)

(** [SELECT * FROM friend_requests WHERE (sender_id = $1 AND receiver_id = $2)
    OR (sender_id = $2 AND receiver_id = $1)] *)
Definition checkRequestQuery (db : database) (p1 p2 : Z) : list FriendRequest.t :=
  filter (fun r => either_direction (FriendRequest.sender_id r)
                     (FriendRequest.receiver_id r) p1 p2)
         (friend_requests db).

(** [INSERT INTO friend_requests (sender_id, receiver_id, status)
    VALUES ($1, $2, 'pending') RETURNING *]; the id is generated by the
    database. *)
Definition insertRequestQuery (db : database) (now : Z) (p1 p2 : Z)
  : database * FriendRequest.t :=
  let row := FriendRequest.mk (friend_requests_seq db) p1 p2 "pending" now now in
  (with_friend_requests db (friend_requests db ++ [row]) (friend_requests_seq db + 1),
   row).

(** The branch on [requestResult.rows]: the reply that ends the handler, if
    any.  Only [rows[0]] is inspected. *)
Definition existing_request_reply (rows : list FriendRequest.t) (senderId : Z)
  : option response :=
  match rows with
  | existingRequest :: _ =>
      if (FriendRequest.status existingRequest =? "pending")%string then
        if FriendRequest.sender_id existingRequest =? senderId
        then Some (mkres 409 (error "Friend request already sent to this user"))
        else Some (mkres 409 (error
               "This user has already sent you a friend request. Please check your requests."))
      else if (FriendRequest.status existingRequest =? "accepted")%string
      then Some (mkres 409 (error "You are already friends with this user"))
      else None
  | [] => None
  end.

Definition send_friend_request (db : database) (now : Z)
    (senderId : option Z) (receiverUsername : option string) : database * response :=
  match present senderId, present receiverUsername with
  | Some senderId, Some receiverUsername =>
      match select_user_by_username db receiverUsername with
      | [] => (db, mkres 404 (error "Recipient username not found"))
      | receiver :: _ =>
          let receiverId := User.id receiver in
          if senderId =? receiverId
          then (db, mkres 400 (error "You cannot send a friend request to yourself"))
          else if nonempty (checkFriendshipQuery db senderId receiverId)
          then (db, mkres 409 (error "You are already friends with this user"))
          else
            match existing_request_reply (checkRequestQuery db senderId receiverId)
                                         senderId with
            | Some reply => (db, reply)
            | None =>
                (fst (insertRequestQuery db now senderId receiverId),
                 mkres 201 (message "Friend request sent successfully"))
            end
      end
  | _, _ => (db, mkres 400 (error "Sender ID and receiver username are required"))
  end.

(** ** [GET /friend-requests/:userId]

    [SELECT fr.id AS request_id, fr.sender_id, u.username AS sender_username,
     u.name AS sender_name, fr.created_at
     FROM friend_requests fr JOIN users u ON fr.sender_id = u.id
     WHERE fr.receiver_id = $1 AND fr.status = 'pending'
     ORDER BY fr.created_at DESC] *)
Record incoming_request := mkincoming
  { request_id : Z; from_id : Z; sender_username : string; sender_name : string;
    sent_at : Z }.

Definition get_friend_requests (db : database) (userId : Z) : list incoming_request :=
  order_by (descending sent_at)
    (flat_map (fun fr =>
       flat_map (fun u =>
         if (FriendRequest.sender_id fr =? User.id u)
            && (FriendRequest.receiver_id fr =? userId)
            && (FriendRequest.status fr =? "pending")%string
         then [mkincoming (FriendRequest.id fr) (FriendRequest.sender_id fr)
                          (User.username u) (User.name u) (FriendRequest.created_at fr)]
         else [])
         (users db))
       (friend_requests db)).

(** ** [POST /accept-friend-request] *)

(** [... WHERE id = $1 AND receiver_id = $2 AND status = 'pending'] *)
Definition pending_for (requestId userId : Z) (r : FriendRequest.t) : bool :=
  (FriendRequest.id r =? requestId) && (FriendRequest.receiver_id r =? userId)
  && (FriendRequest.status r =? "pending")%string.

(** [SELECT * FROM friend_requests WHERE id = $1 AND receiver_id = $2
    AND status = 'pending'] *)
Definition requestQuery (db : database) (p1 p2 : Z) : list FriendRequest.t :=
  filter (pending_for p1 p2) (friend_requests db).

Definition set_status (status : string) (now : Z) (r : FriendRequest.t)
  : FriendRequest.t :=
  FriendRequest.mk (FriendRequest.id r) (FriendRequest.sender_id r)
                   (FriendRequest.receiver_id r) status
                   (FriendRequest.created_at r) now.

(** [UPDATE friend_requests SET status = 'accepted', updated_at = NOW()
    WHERE id = $1 RETURNING *] *)
Definition updateRequestQuery (db : database) (now : Z) (p1 : Z) : database :=
  with_friend_requests db
    (map (fun r => if FriendRequest.id r =? p1 then set_status "accepted" now r else r)
         (friend_requests db))
    (friend_requests_seq db).

(** [INSERT INTO friendships (user1_id, user2_id) VALUES ($1, $2)
    ON CONFLICT (LEAST(user1_id, user2_id), GREATEST(user1_id, user2_id))
    DO NOTHING] *)
Definition insertFriendship1Query (db : database) (p1 p2 : Z) : database :=
  if existsb (fun f =>
       (Z.min (Friendship.user1_id f) (Friendship.user2_id f) =? Z.min p1 p2)
       && (Z.max (Friendship.user1_id f) (Friendship.user2_id f) =? Z.max p1 p2))
       (friendships db)
  then db
  else with_friendships db (friendships db ++ [Friendship.mk p1 p2]).

(** The bindings visible where the handler issues its last statement: its
    own [const]s and parameters, then those of the module.  An identifier
    outside this list has no binding, and evaluating it throws a
    [ReferenceError]. *)
Definition accept_scope : list string :=
  [ "req"; "res"; "requestId"; "userId"; "client"; "requestQuery"; "requestResult";
    "request"; "sender_id"; "receiver_id"; "updateRequestQuery";
    "insertFriendship1Query";
    "express"; "http"; "cors"; "Server"; "Pool"; "bcrypt"; "app"; "server"; "io";
    "pool"; "PORT"; "require"; "process"; "console" ].

Definition bound (scope : list string) (identifier : string) : bool :=
  existsb (String.eqb identifier) scope.

(** The handler runs its statements on a connection of its own between
    [BEGIN] and [COMMIT]/[ROLLBACK]: [tx] is the state the transaction sees,
    [db] the committed state, which [ROLLBACK] leaves as it was.  The
    friendship insert is issued as
    [client.query(insertFriendship11Query, [sender_id, receiver_id])]. *)
Definition accept_friend_request (db : database) (now : Z)
    (requestId userId : option Z) : database * response :=
  match present requestId, present userId with
  | Some requestId, Some userId =>
      let tx := db in
      match requestQuery tx requestId userId with
      | [] => (db, mkres 404 (error "Friend request not found or already processed"))
      | request :: _ =>
          let sender_id := FriendRequest.sender_id request in
          let receiver_id := FriendRequest.receiver_id request in
          let tx := updateRequestQuery tx now requestId in
          if bound accept_scope "insertFriendship11Query" then
            let tx := insertFriendship1Query tx sender_id receiver_id in
            (tx, mkres 200 (message "Friend request accepted successfully"))
          else (db, internal_server_error)
      end
  | _, _ => (db, mkres 400 (error "Request ID and User ID are required"))
  end.

(** ** [POST /decline-friend-request] *)

(** [SET status = 'declined', updated_at = NOW()] on the rows that match
    [WHERE id = $1 AND receiver_id = $2 AND status = 'pending']. *)
Definition declined_row (now requestId userId : Z) (r : FriendRequest.t)
  : FriendRequest.t :=
  if pending_for requestId userId r then set_status "declined" now r else r.

(** The statement of the handler:
    [UPDATE friend_requests SET status = 'declined', updated_at = NOW()
    WHERE id = $1 AND receiver_id = $2 AND status = 'pending' RETURNING *] *)
Definition declineQuery (db : database) (now : Z) (p1 p2 : Z)
  : database * list FriendRequest.t :=
  (with_friend_requests db
     (map (declined_row now p1 p2) (friend_requests db))
     (friend_requests_seq db),
   map (set_status "declined" now) (filter (pending_for p1 p2) (friend_requests db))).

Definition decline_friend_request (db : database) (now : Z)
    (requestId userId : option Z) : database * response :=
  match present requestId, present userId with
  | Some requestId, Some userId =>
      let '(db', rows) := declineQuery db now requestId userId in
      if (List.length rows =? 0)%nat
      then (db', mkres 404 (error "Friend request not found or already processed"))
      else (db', mkres 200 (message "Friend request declined successfully"))
  | _, _ => (db, mkres 400 (error "Request ID and User ID are required"))
  end.

(** * Scenario data

    Three registered users and no relationship between them. *)
Definition alice : User.t := User.mk 1 "alice" "$2b$10$a" "Alice" None.
Definition bob : User.t := User.mk 2 "bob" "$2b$10$b" "Bob" None.
Definition carol : User.t := User.mk 3 "carol" "$2b$10$c" "Carol" None.

Definition db0 : database := mkdb [alice; bob; carol] [] [] [] 4 1 1.

(** [alice] has asked [bob]: request 1 is pending. *)
Definition db_asked : database :=
  fst (send_friend_request db0 100 (Some 1) (Some "bob")).

(** [bob] has declined request 1. *)
Definition db_declined : database :=
  fst (decline_friend_request db_asked 101 (Some 1) (Some 2)).

(** [alice] has asked again: request 2 is pending, request 1 is declined. *)
Definition db_asked_again : database :=
  fst (send_friend_request db_declined 102 (Some 1) (Some "bob")).

(** * Notions used in the statements *)

Definition friend_ids (db : database) (userId : Z) : list Z :=
  map (fun row => fst (fst row)) (friends db userId).

Definition sent : response := mkres 201 (message "Friend request sent successfully").

(** While the first stored request between two users is pending or accepted
    it is the only request stored for them.  It holds of a store without
    requests and every request the server handles keeps it
    ([one_open_request_handle]). *)
Definition one_open_request (db : database) : Prop :=
  forall a b r rest,
    checkRequestQuery db a b = r :: rest ->
    FriendRequest.status r = "pending" \/ FriendRequest.status r = "accepted" ->
    rest = [].

(** The row the store returns for the values of a message. *)
Definition saved_row (srv : server) (now senderId receiverId : Z)
    (values : option string * string * option string) : Message.t :=
  let '(content, message_type, image_data) := values in
  Message.mk (messages_seq (pool srv)) senderId receiverId content message_type
             image_data now.

Definition text_row (srv : server) (now senderId receiverId : Z) (content : string)
  : Message.t :=
  Message.mk (messages_seq (pool srv)) senderId receiverId (Some content) "text" None now.

(** Three connections: socket 10 was opened by [alice], 20 by [bob] and 30
    by [carol]. *)
Definition opened_by (socket_id : Z) : Z := socket_id / 10.

Definition srv0 : server := mksrv db0 [10; 20; 30].

(** A text of 501 characters. *)
Definition long_text : string := string_of_list_ascii (repeat "a"%char 501).

(** The type discriminator of a row and the payload column it goes with. *)
Definition payload_matches_type (m : Message.t) : Prop :=
  (Message.message_type m = "text" /\ Message.image_data m = None
   /\ exists content, Message.content m = Some content /\ content <> "")
  \/ (Message.message_type m = "image" /\ Message.content m = None
      /\ exists imageData, Message.image_data m = Some imageData /\ imageData <> "").

(** The requests the server accepts, with the results of the calls the
    handlers make outside the store. *)
Inductive request :=
| Register (passwordHash : string) (username password name : option string)
| Login (isMatch : bool) (username password : option string)
| AddFriend (userId : option Z) (friendUsername : option string)
| AddFriendRev (userId : option Z) (friendUsername : option string)
| GetFriends (userId : Z)
| GetMessages (userId friendId : Z)
| GetFriendRequests (userId : Z)
| SendFriendRequest (senderId : option Z) (receiverUsername : option string)
| AcceptFriendRequest (requestId userId : option Z)
| DeclineFriendRequest (requestId userId : option Z)
| ChatMessage (store_ok : bool) (socket : Z) (msg : ChatEvent.t).

(** The store after the server has handled a request at time [now]. *)
Definition handle (now : Z) (req : request) (srv : server) : database :=
  match req with
  | Register passwordHash username password name =>
      fst (register (pool srv) passwordHash username password name)
  | Login isMatch username password =>
      fst (login (pool srv) now isMatch username password)
  | AddFriend userId friendUsername => fst (add_friend (pool srv) userId friendUsername)
  | AddFriendRev userId friendUsername =>
      fst (add_friend_rev (pool srv) userId friendUsername)
  | GetFriends _ | GetMessages _ _ | GetFriendRequests _ => pool srv
  | SendFriendRequest senderId receiverUsername =>
      fst (send_friend_request (pool srv) now senderId receiverUsername)
  | AcceptFriendRequest requestId userId =>
      fst (accept_friend_request (pool srv) now requestId userId)
  | DeclineFriendRequest requestId userId =>
      fst (decline_friend_request (pool srv) now requestId userId)
  | ChatMessage store_ok socket msg =>
      pool (fst (chat_message srv now store_ok socket msg))
  end.

(** The friendship [/add-friend] stores, if any. *)
Definition added_friendship (db : database) (userId : option Z)
    (friendUsername : option string) : list Friendship.t :=
  match present userId, present friendUsername with
  | Some userId, Some friendUsername =>
      match select_user_by_username db friendUsername with
      | friend :: _ =>
          if nonempty (checkFriendshipQuery db userId (User.id friend)) then []
          else [Friendship.mk userId (User.id friend)]
      | [] => []
      end
  | _, _ => []
  end.

(** * The token-based revision ([src/unnamed/part_000]) *)

(** ** Database configuration

    [dbConfig] takes five settings from the environment and carries a
    literal [ssl] object; the loop [for (const key in dbConfig)] warns about
    every key whose value is falsy. *)
Inductive config_value :=
| from_env (value : option string)
| ssl_options (rejectUnauthorized : bool).

Definition dbConfig (env : string -> option string) : list (string * config_value) :=
  [ ("user", from_env (env "PGUSER"));
    ("host", from_env (env "PGHOST"));
    ("database", from_env (env "PGDATABASE"));
    ("password", from_env (env "PGPASSWORD"));
    ("port", from_env (env "PGPORT"));
    ("ssl", ssl_options false) ].

(** [!dbConfig[key]]: an object is truthy, an unset or empty variable is
    not. *)
Definition config_missing (v : config_value) : bool :=
  match v with
  | from_env value => match present value with Some _ => false | None => true end
  | ssl_options _ => false
  end.

(** The lines written by [console.warn]. *)
Definition config_warnings (config : list (string * config_value)) : list string :=
  flat_map (fun entry =>
              if config_missing (snd entry)
              then [("Missing environment variable for database: " ++ fst entry)%string]
              else [])
           config.

(** ** [POST /register] of the token-based revision

    The handler looks the username up before it inserts;
    [hashedPassword] is the result of [bcrypt.hash]. *)
Definition register_rev (db : database) (hashedPassword : string)
    (name username password : option string) : database * response :=
  match present name, present username, present password with
  | Some name, Some username, Some _ =>
      if nonempty (select_user_by_username db username)
      then (db, mkres 400 (error "Username already exists"))
      else
        let row := User.mk (users_seq db) username hashedPassword name None in
        (with_users db (users db ++ [row]) (users_seq db + 1),
         mkres 201 (account (User.id row) (User.username row) (User.name row)))
  | _, _, _ => (db, mkres 400 (error "Name, username, and password are required"))
  end.

(** * Further notions used in the statements *)

Definition usernames (db : database) : list string := map User.username (users db).

(** What a login must not alter: everything of a user but [last_login]. *)
Definition credentials (db : database) : list (Z * string * string * string) :=
  map (fun u => (User.id u, User.username u, User.password_hash u, User.name u))
      (users db).

(** The unordered pair of a friendship row. *)
Definition unordered (f : Friendship.t) : Z * Z :=
  (Z.min (Friendship.user1_id f) (Friendship.user2_id f),
   Z.max (Friendship.user1_id f) (Friendship.user2_id f)).

(** [user.name || user.username] *)
Definition display_name (name : option string) (username : string) : string :=
  match present name with Some n => n | None => username end.

(** * The accept transaction and the socket listener *)


(** How a run of the listener ends: it returns, or it throws.  What Node
    then does with the rejected promise of the listener, which nothing
    handles (by default it ends the process, and with it every connection),
    is not part of the listener. *)
Inductive ending :=
| returned (srv : server) (trace : list effect)
| thrown (exception : string) (trace : list effect).

(** The listener as Socket.io calls it, with whatever the client sent.  A
    client may emit the event without payload, or with [null]: [msg] is then
    [undefined] or [null], [console.log] prints it, and [msg.senderId], which
    is read before the [try] block, throws a [TypeError] that nothing
    catches.  A payload that is an object is [Some] event; a payload that is
    a number, a string or a boolean reads as an object without fields. *)
Definition on_chat_message (srv : server) (now : Z) (store_ok : bool) (socket : Z)
    (payload : option ChatEvent.t) : ending :=
  match payload with
  | None => thrown "TypeError" [console_log "Received message:"]
  | Some msg =>
      returned (fst (chat_message srv now store_ok socket msg))
               (snd (chat_message srv now store_ok socket msg))
  end.

(** * Properties *)

(** ** Truthiness and parameters *)

Lemma truthy_Z_iff (n : Z) : truthy n = true <-> n <> 0.
Proof.
  unfold truthy, truthy_Z. rewrite negb_true_iff, Z.eqb_neq. reflexivity.
Qed.

Lemma truthy_string_iff (s : string) : truthy s = true <-> s <> "".
Proof.
  unfold truthy, truthy_string. rewrite negb_true_iff, String.eqb_neq. reflexivity.
Qed.

Lemma present_truthy {A} `{Truthy A} (v : A) :
  truthy v = true -> present (Some v) = Some v.
Proof. intros Hv. unfold present. now rewrite Hv. Qed.

Lemma present_Some {A} `{Truthy A} (field : option A) (v : A) :
  present field = Some v <-> field = Some v /\ truthy v = true.
Proof.
  unfold present. destruct field as [w|].
  - destruct (truthy w) eqn:E; split.
    + intros [= <-]. auto.
    + intros [[= <-] _]. reflexivity.
    + discriminate.
    + intros [[= <-] Hv]. congruence.
  - split; [discriminate | intros [Hf _]; discriminate Hf].
Qed.

Lemma present_None {A} `{Truthy A} (field : option A) :
  present field = None <-> forall v, field = Some v -> truthy v = false.
Proof.
  unfold present. destruct field as [w|].
  - destruct (truthy w) eqn:E; split.
    + discriminate.
    + intros Hf. specialize (Hf w eq_refl). congruence.
    + intros _ v [= <-]. exact E.
    + reflexivity.
  - split; [intros _ v Hv; discriminate Hv | reflexivity].
Qed.

Lemma nonempty_false {A} (rows : list A) : nonempty rows = false <-> rows = [].
Proof. destruct rows; cbn; split; congruence. Qed.

Lemma either_direction_swap a b p1 p2 :
  either_direction a b p1 p2 = either_direction a b p2 p1.
Proof. unfold either_direction. apply orb_comm. Qed.

Lemma either_direction_true a b p1 p2 :
  either_direction a b p1 p2 = true <-> (a = p1 /\ b = p2) \/ (a = p2 /\ b = p1).
Proof.
  unfold either_direction.
  rewrite orb_true_iff, !andb_true_iff, !Z.eqb_eq. reflexivity.
Qed.

(** Case analysis along the branches of a handler. *)
Ltac handler_cases :=
  unfold insert_message;
  repeat (cbn beta iota;
          match goal with
          | |- context [match ?c with _ => _ end] => destruct c
          end).

(** ** The accept handler never commits *)

Lemma accept_scope_misses : bound accept_scope "insertFriendship11Query" = false.
Proof. reflexivity. Qed.

(** Whatever the input, the committed state after the handler is the one
    before it. *)
Lemma accept_friend_request_rolls_back db now requestId userId :
  fst (accept_friend_request db now requestId userId) = db.
Proof.
  unfold accept_friend_request.
  destruct (present requestId) as [rid|]; [|reflexivity].
  destruct (present userId) as [uid|]; [|reflexivity].
  destruct (requestQuery db rid uid); [reflexivity|].
  rewrite accept_scope_misses. reflexivity.
Qed.

Lemma accept_friend_request_reply db now requestId userId :
  snd (accept_friend_request db now requestId userId) =
  match present requestId, present userId with
  | Some rid, Some uid =>
      if nonempty (requestQuery db rid uid)
      then internal_server_error
      else mkres 404 (error "Friend request not found or already processed")
  | _, _ => mkres 400 (error "Request ID and User ID are required")
  end.
Proof.
  unfold accept_friend_request.
  destruct (present requestId) as [rid|]; [|reflexivity].
  destruct (present userId) as [uid|]; [|reflexivity].
  destruct (requestQuery db rid uid); [reflexivity|].
  rewrite accept_scope_misses. reflexivity.
Qed.

Lemma requestQuery_nonempty db requestId userId request :
  In request (friend_requests db) -> pending_for requestId userId request = true ->
  nonempty (requestQuery db requestId userId) = true.
Proof.
  intros Hin Hp.
  assert (Hf : In request (requestQuery db requestId userId))
    by (apply filter_In; auto).
  destruct (requestQuery db requestId userId); [destruct Hf | reflexivity].
Qed.

(** C1 (defect of the code).  For present ids: without a pending request of
    that id addressed to the acting user the handler answers 404 and changes
    nothing; with one, it does not reach [COMMIT]: the statement that inserts
    the friendship names an unbound query string, the handler rolls back and
    answers 500, so the request stays pending and no friendship is stored. *)
Theorem accept_friend_request_pending_fails db now requestId userId :
  truthy requestId = true -> truthy userId = true ->
  (requestQuery db requestId userId = [] ->
   accept_friend_request db now (Some requestId) (Some userId) =
   (db, mkres 404 (error "Friend request not found or already processed")))
  /\ (forall request,
        In request (friend_requests db) ->
        pending_for requestId userId request = true ->
        accept_friend_request db now (Some requestId) (Some userId) =
        (db, internal_server_error)).
Proof.
  intros Hr Hu. split.
  - intros Hnone. apply injective_projections.
    + apply accept_friend_request_rolls_back.
    + rewrite accept_friend_request_reply, !present_truthy by assumption.
      now rewrite Hnone.
  - intros request Hin Hp. apply injective_projections.
    + apply accept_friend_request_rolls_back.
    + rewrite accept_friend_request_reply, !present_truthy by assumption.
      now rewrite (requestQuery_nonempty _ _ _ _ Hin Hp).
Qed.

Lemma accept_friend_request_pending_fails_witness :
  accept_friend_request db_asked 101 (Some 1) (Some 2) = (db_asked, internal_server_error)
  /\ accept_friend_request db_asked 101 (Some 1) (Some 1) =
     (db_asked, mkres 404 (error "Friend request not found or already processed")).
Proof.
  destruct (accept_friend_request_pending_fails db_asked 101 1 2 eq_refl eq_refl)
    as [_ Hp].
  destruct (accept_friend_request_pending_fails db_asked 101 1 1 eq_refl eq_refl)
    as [Hn _].
  split.
  - apply (Hp (FriendRequest.mk 1 1 2 "pending" 100 100)).
    + left. reflexivity.
    + reflexivity.
  - apply Hn. reflexivity.
Defined.

(** ** Friend lists *)

Lemma friend_ids_spec db userId i :
  In i (friend_ids db userId) <->
  exists u f, In u (users db) /\ In f (friendships db) /\ User.id u = i /\ i <> userId
    /\ either_direction (Friendship.user1_id f) (Friendship.user2_id f) i userId = true.
Proof.
  unfold friend_ids, friends. rewrite in_map_iff. split.
  - intros [row [Hi Hrow]]. apply in_flat_map in Hrow as [u [Hu Hrow]].
    apply in_flat_map in Hrow as [f [Hf Hrow]].
    destruct (_ && negb _) eqn:Hc in Hrow; [|destruct Hrow].
    destruct Hrow as [<-|[]]. cbn in Hi. subst i.
    apply andb_true_iff in Hc as [Hj Hne].
    apply negb_true_iff, Z.eqb_neq in Hne.
    exists u, f. repeat split; auto.
    apply either_direction_true.
    apply orb_true_iff in Hj as [Hj|Hj]; apply andb_true_iff in Hj as [H1 H2];
      apply Z.eqb_eq in H1, H2; [left | right]; split; congruence.
  - intros (u & f & Hu & Hf & Hid & Hne & Hd).
    exists (User.id u, User.username u, User.name u). split; [exact Hid|].
    apply in_flat_map. exists u. split; [exact Hu|].
    apply in_flat_map. exists f. split; [exact Hf|].
    apply either_direction_true in Hd.
    assert (Hc : ((User.id u =? Friendship.user1_id f) && (Friendship.user2_id f =? userId)
                  || (User.id u =? Friendship.user2_id f) && (Friendship.user1_id f =? userId))
                 && negb (User.id u =? userId) = true).
    { apply andb_true_iff. split.
      - apply orb_true_iff.
        destruct Hd as [[H1 H2]|[H1 H2]]; [left | right];
          apply andb_true_iff; split; apply Z.eqb_eq; congruence.
      - apply negb_true_iff, Z.eqb_neq. congruence. }
    rewrite Hc. left. reflexivity.
Qed.

(** A stored friendship row is found from either side of the pair. *)
Lemma friends_either_side db f a b :
  In f (friendships db) -> In a (users db) -> In b (users db) ->
  Friendship.user1_id f = User.id a -> Friendship.user2_id f = User.id b ->
  User.id a <> User.id b ->
  In (User.id b) (friend_ids db (User.id a)) /\ In (User.id a) (friend_ids db (User.id b)).
Proof.
  intros Hf Ha Hb H1 H2 Hne. split; apply friend_ids_spec.
  - exists b, f. repeat split; auto.
    apply either_direction_true. right. auto.
  - exists a, f. repeat split; auto.
    apply either_direction_true. left. auto.
Qed.

Lemma friend_ids_none db a b :
  checkFriendshipQuery db a b = [] -> ~ In b (friend_ids db a).
Proof.
  intros Hnone Hin. apply friend_ids_spec in Hin as (u & f & _ & Hf & _ & _ & Hd).
  assert (Hq : In f (checkFriendshipQuery db a b)).
  { apply filter_In. split; [exact Hf|]. now rewrite either_direction_swap. }
  rewrite Hnone in Hq. destruct Hq.
Qed.






(** ** Sending a request *)

(** The checks of the handler, in the order it runs them. *)
Lemma send_friend_request_unknown db now senderId receiverUsername :
  truthy senderId = true -> truthy receiverUsername = true ->
  select_user_by_username db receiverUsername = [] ->
  send_friend_request db now (Some senderId) (Some receiverUsername) =
  (db, mkres 404 (error "Recipient username not found")).
Proof.
  intros Hs Hn Hq. unfold send_friend_request.
  rewrite !present_truthy by assumption. now rewrite Hq.
Qed.

Lemma send_friend_request_self db now senderId receiverUsername receiver rest :
  truthy senderId = true -> truthy receiverUsername = true ->
  select_user_by_username db receiverUsername = receiver :: rest ->
  User.id receiver = senderId ->
  send_friend_request db now (Some senderId) (Some receiverUsername) =
  (db, mkres 400 (error "You cannot send a friend request to yourself")).
Proof.
  intros Hs Hn Hq Hid. unfold send_friend_request.
  rewrite !present_truthy by assumption. rewrite Hq, Hid, Z.eqb_refl. reflexivity.
Qed.

Lemma send_friend_request_friends db now senderId receiverUsername receiver rest :
  truthy senderId = true -> truthy receiverUsername = true ->
  select_user_by_username db receiverUsername = receiver :: rest ->
  User.id receiver <> senderId ->
  checkFriendshipQuery db senderId (User.id receiver) <> [] ->
  send_friend_request db now (Some senderId) (Some receiverUsername) =
  (db, mkres 409 (error "You are already friends with this user")).
Proof.
  intros Hs Hn Hq Hid Hf. unfold send_friend_request.
  rewrite !present_truthy by assumption. rewrite Hq.
  destruct (Z.eqb_spec senderId (User.id receiver)) as [E|_]; [congruence|].
  destruct (nonempty _) eqn:Hne; [reflexivity|].
  apply nonempty_false in Hne. contradiction.
Qed.

Lemma send_friend_request_checked db now senderId receiverUsername receiver rest :
  truthy senderId = true -> truthy receiverUsername = true ->
  select_user_by_username db receiverUsername = receiver :: rest ->
  User.id receiver <> senderId ->
  checkFriendshipQuery db senderId (User.id receiver) = [] ->
  send_friend_request db now (Some senderId) (Some receiverUsername) =
  match existing_request_reply
          (checkRequestQuery db senderId (User.id receiver)) senderId with
  | Some reply => (db, reply)
  | None => (fst (insertRequestQuery db now senderId (User.id receiver)), sent)
  end.
Proof.
  intros Hs Hn Hq Hid Hf. unfold send_friend_request.
  rewrite !present_truthy by assumption. rewrite Hq.
  destruct (Z.eqb_spec senderId (User.id receiver)) as [E|_]; [congruence|].
  rewrite Hf. reflexivity.
Qed.

(** A pending request that is the first stored one between the pair stops
    the handler, with a reply that tells who sent it. *)
Lemma existing_request_reply_pending existingRequest rows senderId :
  FriendRequest.status existingRequest = "pending" ->
  existing_request_reply (existingRequest :: rows) senderId =
  Some (mkres 409 (error
    (if FriendRequest.sender_id existingRequest =? senderId
     then "Friend request already sent to this user"
     else "This user has already sent you a friend request. Please check your requests."))).
Proof.
  intros Hst. unfold existing_request_reply. rewrite Hst. cbn.
  destruct (_ =? _); reflexivity.
Qed.

(** A first stored request that is neither pending nor accepted lets the
    handler go on, whatever the later rows are. *)
Lemma existing_request_reply_other existingRequest rows senderId :
  FriendRequest.status existingRequest <> "pending" ->
  FriendRequest.status existingRequest <> "accepted" ->
  existing_request_reply (existingRequest :: rows) senderId = None.
Proof.
  intros Hp Ha. unfold existing_request_reply.
  apply String.eqb_neq in Hp, Ha. now rewrite Hp, Ha.
Qed.

(** C2 (defect of the code).  When the first stored request between the
    two users is a declined one, a pending request stored after it does not
    stop the handler: the sender is not told of a duplicate; a further
    pending request is inserted and the reply is 201.  The handler looks at
    [rows[0]] only. *)
Theorem send_friend_request_duplicate_after_decline
    db now senderId receiverUsername receiver rest first later pending :
  truthy senderId = true -> truthy receiverUsername = true ->
  select_user_by_username db receiverUsername = receiver :: rest ->
  User.id receiver <> senderId ->
  checkFriendshipQuery db senderId (User.id receiver) = [] ->
  checkRequestQuery db senderId (User.id receiver) = first :: later ->
  FriendRequest.status first = "declined" ->
  In pending later -> FriendRequest.status pending = "pending" ->
  send_friend_request db now (Some senderId) (Some receiverUsername) =
  (with_friend_requests db
     (friend_requests db
      ++ [FriendRequest.mk (friend_requests_seq db) senderId (User.id receiver)
            "pending" now now])
     (friend_requests_seq db + 1),
   sent).
Proof.
  intros Hs Hn Hq Hid Hf Hrows Hfirst _ _.
  rewrite (send_friend_request_checked _ _ _ _ receiver rest) by assumption.
  rewrite Hrows, existing_request_reply_other; [reflexivity | |];
    rewrite Hfirst; discriminate.
Qed.

(** The state is reached through the handlers: [alice] asks [bob], [bob]
    declines, [alice] asks again; then either of them can ask once more. *)
Lemma send_friend_request_duplicate_after_decline_witness :
  friend_requests db_asked_again =
    [FriendRequest.mk 1 1 2 "declined" 100 101; FriendRequest.mk 2 1 2 "pending" 102 102]
  /\ send_friend_request db_asked_again 103 (Some 1) (Some "bob") =
     (with_friend_requests db_asked_again
        (friend_requests db_asked_again ++ [FriendRequest.mk 3 1 2 "pending" 103 103]) 4,
      sent)
  /\ send_friend_request db_asked_again 103 (Some 2) (Some "alice") =
     (with_friend_requests db_asked_again
        (friend_requests db_asked_again ++ [FriendRequest.mk 3 2 1 "pending" 103 103]) 4,
      sent).
Proof.
  split; [reflexivity|]. split.
  - apply (send_friend_request_duplicate_after_decline db_asked_again 103 1 "bob" bob []
             (FriendRequest.mk 1 1 2 "declined" 100 101)
             [FriendRequest.mk 2 1 2 "pending" 102 102]
             (FriendRequest.mk 2 1 2 "pending" 102 102));
      try reflexivity; [discriminate | left; reflexivity].
  - apply (send_friend_request_duplicate_after_decline db_asked_again 103 2 "alice" alice []
             (FriendRequest.mk 1 1 2 "declined" 100 101)
             [FriendRequest.mk 2 1 2 "pending" 102 102]
             (FriendRequest.mk 2 1 2 "pending" 102 102));
      try reflexivity; [discriminate | left; reflexivity].
Defined.

(** ** Declining a request *)

Lemma with_friend_requests_same db :
  with_friend_requests db (friend_requests db) (friend_requests_seq db) = db.
Proof. destruct db. reflexivity. Qed.

Lemma declined_row_untouched now requestId userId (l : list FriendRequest.t) :
  filter (pending_for requestId userId) l = [] ->
  map (declined_row now requestId userId) l = l.
Proof.
  induction l as [|r l IH]; cbn; [reflexivity|].
  unfold declined_row at 1.
  destruct (pending_for requestId userId r); [discriminate|].
  intros Hl. now rewrite IH.
Qed.

Lemma decline_friend_request_eq db now requestId userId :
  truthy requestId = true -> truthy userId = true ->
  decline_friend_request db now (Some requestId) (Some userId) =
  (with_friend_requests db
     (map (declined_row now requestId userId) (friend_requests db))
     (friend_requests_seq db),
   if nonempty (requestQuery db requestId userId)
   then mkres 200 (message "Friend request declined successfully")
   else mkres 404 (error "Friend request not found or already processed")).
Proof.
  intros Hr Hu. unfold decline_friend_request, declineQuery.
  rewrite !present_truthy by assumption.
  unfold requestQuery.
  destruct (filter (pending_for requestId userId) (friend_requests db)); reflexivity.
Qed.

Lemma declined_row_pair now requestId userId r p1 p2 :
  either_direction (FriendRequest.sender_id (declined_row now requestId userId r))
                   (FriendRequest.receiver_id (declined_row now requestId userId r)) p1 p2
  = either_direction (FriendRequest.sender_id r) (FriendRequest.receiver_id r) p1 p2.
Proof. unfold declined_row. destruct (pending_for _ _ r); reflexivity. Qed.

Lemma filter_map_commute {A} (p : A -> bool) (f : A -> A) (l : list A) :
  (forall x, p (f x) = p x) -> filter p (map f l) = map f (filter p l).
Proof.
  intros Hp. induction l as [|x l IH]; cbn; [reflexivity|].
  rewrite Hp. destruct (p x); cbn; now rewrite IH.
Qed.

Lemma checkRequestQuery_declined db now requestId userId seq p1 p2 :
  checkRequestQuery
    (with_friend_requests db
       (map (declined_row now requestId userId) (friend_requests db)) seq) p1 p2
  = map (declined_row now requestId userId) (checkRequestQuery db p1 p2).
Proof.
  unfold checkRequestQuery. cbn.
  apply filter_map_commute. intros r. apply declined_row_pair.
Qed.

Lemma checkRequestQuery_swap db p1 p2 :
  checkRequestQuery db p1 p2 = checkRequestQuery db p2 p1.
Proof.
  unfold checkRequestQuery. apply filter_ext. intros r. apply either_direction_swap.
Qed.

Lemma declined_row_status now requestId userId r :
  FriendRequest.status (declined_row now requestId userId r) = "pending"
  \/ FriendRequest.status (declined_row now requestId userId r) = "accepted" ->
  declined_row now requestId userId r = r.
Proof.
  unfold declined_row. destruct (pending_for requestId userId r); [|reflexivity].
  cbn. intros [H|H]; discriminate H.
Qed.

(** After the decline, the first stored request between the users of the
    declined request is neither pending nor accepted. *)
Lemma first_request_after_decline db now requestId userId request p1 p2 :
  one_open_request db ->
  In request (friend_requests db) ->
  pending_for requestId userId request = true ->
  either_direction (FriendRequest.sender_id request)
                   (FriendRequest.receiver_id request) p1 p2 = true ->
  existing_request_reply
    (map (declined_row now requestId userId) (checkRequestQuery db p1 p2)) p1 = None.
Proof.
  intros Hinv Hin Hp Hpair.
  assert (Hq : In request (checkRequestQuery db p1 p2))
    by (apply filter_In; auto).
  destruct (checkRequestQuery db p1 p2) as [|r rest] eqn:Hrows; [destruct Hq|].
  cbn [map].
  destruct (string_dec (FriendRequest.status (declined_row now requestId userId r))
                       "pending") as [Hs|Hs];
  [|destruct (string_dec (FriendRequest.status (declined_row now requestId userId r))
                         "accepted") as [Ha|Ha]].
  3: now apply existing_request_reply_other.
  all: exfalso.
  all: assert (Hopen : FriendRequest.status (declined_row now requestId userId r) = "pending"
                    \/ FriendRequest.status (declined_row now requestId userId r) = "accepted")
         by auto.
  all: pose proof (declined_row_status _ _ _ _ Hopen) as Hsame.
  all: rewrite Hsame in Hopen.
  all: pose proof (Hinv _ _ _ _ Hrows Hopen) as ->.
  all: destruct Hq as [->|[]].
  all: unfold declined_row in Hsame; rewrite Hp in Hsame.
  all: rewrite <- Hsame in Hopen; cbn in Hopen; destruct Hopen as [H|H]; discriminate H.
Qed.

Lemma either_direction_same_pair s r a b :
  either_direction s r a b = true ->
  forall x y, either_direction x y a b = either_direction x y s r.
Proof.
  intros H x y. apply either_direction_true in H as [[-> ->]|[-> ->]].
  - reflexivity.
  - apply either_direction_swap.
Qed.

Lemma existing_request_reply_None r rows senderId :
  existing_request_reply (r :: rows) senderId = None ->
  FriendRequest.status r <> "pending" /\ FriendRequest.status r <> "accepted".
Proof.
  unfold existing_request_reply.
  destruct (String.eqb_spec (FriendRequest.status r) "pending") as [_|Hp].
  - destruct (_ =? _); discriminate.
  - destruct (String.eqb_spec (FriendRequest.status r) "accepted") as [_|Ha];
      [discriminate | auto].
Qed.

Lemma one_open_request_insert db now senderId receiverId :
  one_open_request db ->
  existing_request_reply (checkRequestQuery db senderId receiverId) senderId = None ->
  one_open_request (fst (insertRequestQuery db now senderId receiverId)).
Proof.
  intros Hinv Hnone a b r rest Hrows Hopen.
  unfold insertRequestQuery, checkRequestQuery in Hrows. cbn in Hrows.
  rewrite filter_app in Hrows. cbn in Hrows.
  destruct (either_direction senderId receiverId a b) eqn:Hpair.
  - pose proof (either_direction_same_pair _ _ _ _ Hpair) as Hsame.
    erewrite filter_ext in Hrows by (intros x; apply Hsame).
    fold (checkRequestQuery db senderId receiverId) in Hrows.
    destruct (checkRequestQuery db senderId receiverId) as [|r0 rest0].
    + cbn in Hrows. congruence.
    + cbn in Hrows. injection Hrows as <- _.
      apply existing_request_reply_None in Hnone. destruct Hnone, Hopen; contradiction.
  - rewrite app_nil_r in Hrows. exact (Hinv _ _ _ _ Hrows Hopen).
Qed.

Lemma one_open_request_send db now senderId receiverUsername :
  one_open_request db ->
  one_open_request (fst (send_friend_request db now senderId receiverUsername)).
Proof.
  intros Hinv. unfold send_friend_request.
  destruct (present senderId) as [s|]; [|exact Hinv].
  destruct (present receiverUsername) as [n|]; [|exact Hinv].
  destruct (select_user_by_username db n) as [|receiver ?]; [exact Hinv|].
  destruct (s =? User.id receiver); [exact Hinv|].
  destruct (nonempty _); [exact Hinv|].
  destruct (existing_request_reply _ _) eqn:Hreply; [exact Hinv|].
  now apply one_open_request_insert.
Qed.

Lemma one_open_request_decline db now requestId userId :
  one_open_request db ->
  one_open_request (fst (decline_friend_request db now requestId userId)).
Proof.
  intros Hinv. unfold decline_friend_request.
  destruct (present requestId) as [rid|]; [|exact Hinv].
  destruct (present userId) as [uid|]; [|exact Hinv].
  unfold declineQuery.
  assert (Hdb : one_open_request
                  (with_friend_requests db
                     (map (declined_row now rid uid) (friend_requests db))
                     (friend_requests_seq db))).
  { intros a b r rest Hrows Hopen.
    rewrite checkRequestQuery_declined in Hrows.
    destruct (checkRequestQuery db a b) as [|r0 rest0] eqn:Hold; [discriminate|].
    cbn in Hrows. injection Hrows as <- <-.
    rewrite (declined_row_status _ _ _ _ Hopen) in Hopen.
    now rewrite (Hinv _ _ _ _ Hold Hopen). }
  destruct (List.length _ =? 0)%nat; exact Hdb.
Qed.

Lemma one_open_request_ext db db' :
  friend_requests db' = friend_requests db ->
  one_open_request db -> one_open_request db'.
Proof.
  intros Heq Hinv a b r rest Hrows. apply (Hinv a b).
  unfold checkRequestQuery in *. now rewrite <- Heq.
Qed.

Lemma friend_requests_untouched now req srv :
  match req with
  | SendFriendRequest _ _ | DeclineFriendRequest _ _ => True
  | _ => friend_requests (handle now req srv) = friend_requests (pool srv)
  end.
Proof.
  destruct req; cbn [handle]; try exact I; try reflexivity.
  - unfold register. handler_cases; reflexivity.
  - unfold login. handler_cases; reflexivity.
  - unfold add_friend, add_friend_with. handler_cases; reflexivity.
  - unfold add_friend_rev, add_friend_with. handler_cases; reflexivity.
  - now rewrite accept_friend_request_rolls_back.
  - unfold chat_message. handler_cases; reflexivity.
Qed.

(** Every request the server handles keeps it. *)
Lemma one_open_request_handle now req srv :
  one_open_request (pool srv) -> one_open_request (handle now req srv).
Proof.
  intros Hinv. pose proof (friend_requests_untouched now req srv) as Hsame.
  destruct req; try (now apply (one_open_request_ext (pool srv))).
  - now apply one_open_request_send.
  - now apply one_open_request_decline.
Qed.

Lemma one_open_request_db0 : one_open_request db0.
Proof. intros a b r rest Hrows. discriminate Hrows. Qed.

Lemma pending_for_declined_row now requestId userId r :
  pending_for requestId userId (declined_row now requestId userId r) = false.
Proof.
  unfold declined_row. destruct (pending_for requestId userId r) eqn:Hp; [|exact Hp].
  unfold pending_for. cbn. apply andb_false_r.
Qed.

Lemma requestQuery_after_decline now requestId userId (l : list FriendRequest.t) :
  filter (pending_for requestId userId) (map (declined_row now requestId userId) l) = [].
Proof.
  induction l as [|r l IH]; cbn; [reflexivity|].
  now rewrite pending_for_declined_row.
Qed.

(** C9.  For present ids, [/decline-friend-request] answers 404 and changes
    nothing unless a pending request of that id addressed to the acting
    user is stored; otherwise it answers 200, that request becomes declined
    and is no longer pending, and the friendships are untouched.  After
    the decline either user of the pair may send the other a new request
    (the other user existing, the two not being friends): the handler
    that checks for an existing request lets a declined one pass and stores
    the new request as pending. *)
Theorem decline_friend_request_then_resend db now requestId userId :
  truthy requestId = true -> truthy userId = true ->
  let after := decline_friend_request db now (Some requestId) (Some userId) in
  (requestQuery db requestId userId = [] ->
   after = (db, mkres 404 (error "Friend request not found or already processed")))
  /\ (forall request,
        In request (friend_requests db) ->
        pending_for requestId userId request = true ->
        snd after = mkres 200 (message "Friend request declined successfully")
        /\ friendships (fst after) = friendships db
        /\ In (set_status "declined" now request) (friend_requests (fst after))
        /\ requestQuery (fst after) requestId userId = []
        /\ forall now' requester receiverUsername target rest,
             one_open_request db ->
             truthy requester = true -> truthy receiverUsername = true ->
             select_user_by_username db receiverUsername = target :: rest ->
             either_direction (FriendRequest.sender_id request)
                              (FriendRequest.receiver_id request)
                              requester (User.id target) = true ->
             requester <> User.id target ->
             checkFriendshipQuery db requester (User.id target) = [] ->
             send_friend_request (fst after) now' (Some requester) (Some receiverUsername)
             = (with_friend_requests (fst after)
                  (friend_requests (fst after)
                   ++ [FriendRequest.mk (friend_requests_seq db) requester
                         (User.id target) "pending" now' now'])
                  (friend_requests_seq db + 1),
                sent)).
Proof.
  intros Hr Hu after. subst after.
  rewrite decline_friend_request_eq by assumption. cbn [fst snd]. split.
  - intros Hnone. rewrite Hnone. cbn [nonempty List.length Nat.ltb Nat.leb].
    unfold requestQuery in Hnone.
    rewrite declined_row_untouched by exact Hnone.
    now rewrite with_friend_requests_same.
  - intros request Hin Hp.
    rewrite (requestQuery_nonempty _ _ _ _ Hin Hp).
    split; [reflexivity|]. split; [reflexivity|]. split; [|split].
    + cbn. apply in_map_iff. exists request. split; [|exact Hin].
      unfold declined_row. now rewrite Hp.
    + unfold requestQuery. cbn. apply requestQuery_after_decline.
    + intros now' requester receiverUsername target rest Hinv Hq Hn Hsel Hpair Hne Hnf.
      rewrite (send_friend_request_checked _ _ _ _ target rest); auto.
      rewrite checkRequestQuery_declined.
      rewrite (first_request_after_decline db now requestId userId request); auto.
Qed.

Lemma decline_friend_request_then_resend_witness :
  let after := decline_friend_request db_asked 101 (Some 1) (Some 2) in
  snd after = mkres 200 (message "Friend request declined successfully")
  /\ friendships (fst after) = []
  /\ In (FriendRequest.mk 1 1 2 "declined" 100 101) (friend_requests (fst after))
  /\ snd (send_friend_request (fst after) 102 (Some 1) (Some "bob")) = sent
  /\ snd (send_friend_request (fst after) 102 (Some 2) (Some "alice")) = sent.
Proof.
  destruct (decline_friend_request_then_resend db_asked 101 1 2 eq_refl eq_refl)
    as [_ Hdeclined].
  destruct (Hdeclined (FriendRequest.mk 1 1 2 "pending" 100 100)
              (or_introl eq_refl) eq_refl)
    as (Hreply & Hfriends & Hrow & _ & Hresend).
  assert (Hinv : one_open_request db_asked)
    by (apply one_open_request_send, one_open_request_db0).
  split; [exact Hreply|]. split; [exact Hfriends|]. split; [exact Hrow|]. split.
  - rewrite (Hresend 102 1 "bob" bob [] Hinv eq_refl eq_refl eq_refl eq_refl);
      [reflexivity | discriminate | reflexivity].
  - rewrite (Hresend 102 2 "alice" alice [] Hinv eq_refl eq_refl eq_refl eq_refl);
      [reflexivity | discriminate | reflexivity].
Defined.

(** ** The chat handler *)

(** A valid message, with the store available: one insert, then one emit of
    the inserted row per connected socket. *)
Lemma chat_message_saved srv now socket msg senderId receiverId values :
  present (ChatEvent.senderId msg) = Some senderId ->
  present (ChatEvent.receiverId msg) = Some receiverId ->
  insert_values msg = Some values ->
  let saved := saved_row srv now senderId receiverId values in
  chat_message srv now true socket msg =
  (mksrv (with_messages (pool srv) (messages (pool srv) ++ [saved]) (messages_seq (pool srv) + 1))
         (sockets srv),
   console_log "Received message:" :: pool_query saved
     :: map (fun s => socket_emit s "chat message" saved) (sockets srv)).
Proof.
  intros Hs Hr Hv. unfold chat_message. rewrite Hs, Hr, Hv.
  destruct values as [[content message_type] image_data]. reflexivity.
Qed.

(** Without values to insert the handler stops after logging. *)
Lemma chat_message_dropped srv now store_ok socket msg :
  insert_values msg = None ->
  fst (chat_message srv now store_ok socket msg) = srv
  /\ exists text,
       snd (chat_message srv now store_ok socket msg) =
       [console_log "Received message:"; console_error text].
Proof.
  intros Hv. unfold chat_message. rewrite Hv.
  destruct (present (ChatEvent.senderId msg)), (present (ChatEvent.receiverId msg));
    (split; [reflexivity | eexists; reflexivity]).
Qed.

Lemma nth_error_emit (sockets : list Z) (saved : Message.t) i s ev p :
  nth_error (map (fun s => socket_emit s "chat message" saved) sockets) i
  = Some (socket_emit s ev p) ->
  p = saved /\ ev = "chat message" /\ In s sockets.
Proof.
  intros Hn. apply nth_error_In, in_map_iff in Hn as [s' [[= -> -> ->] Hin]]. auto.
Qed.

Lemma insert_values_Some msg content message_type image_data :
  insert_values msg = Some (content, message_type, image_data) ->
  (ChatEvent.messageType msg = Some "image" /\ message_type = "image"
   /\ content = None /\ image_data <> None
   /\ image_data = present (ChatEvent.imageData msg))
  \/ (image_payload msg = None /\ message_type = "text"
      /\ image_data = None /\ content <> None
      /\ content = present (ChatEvent.content msg)).
Proof.
  unfold insert_values.
  destruct (image_payload msg) as [img|] eqn:Hi.
  - intros [= <- <- <-]. left. unfold image_payload in Hi.
    destruct (ChatEvent.messageType msg) as [ty|]; [|discriminate].
    destruct (String.eqb_spec ty "image") as [E|]; [|discriminate].
    rewrite Hi, E. repeat split; discriminate.
  - destruct (present (ChatEvent.content msg)) as [c|]; [|discriminate].
    intros [= <- <- <-]. right. repeat split; discriminate.
Qed.

Lemma nth_error_emit_at (sockets : list Z) (saved : Message.t) (s : Z) :
  In s sockets ->
  exists i, nth_error (map (fun s => socket_emit s "chat message" saved) sockets) i
            = Some (socket_emit s "chat message" saved).
Proof.
  intros Hin. apply In_nth_error.
  apply in_map_iff. exists s. auto.
Qed.

(** C4.  A message that passes the checks of the handler is written to the
    [messages] table as the row of its sender, receiver and payload, with
    the id and the timestamp the store assigns, and the run of the handler
    is exactly: the insert of that row, then one emit of that very row to
    each connected socket, in this order.  So every emit comes after the
    insert and carries the stored row, every connected socket is sent it,
    no error is logged, and what is stored does not depend on the connected
    sockets: with nobody to deliver to, the same row is stored.  The payload
    of the row is the one of the event: its image data under type
    ["image"], or else its content under type ["text"]. *)
Theorem chat_message_persists_then_emits
    srv now socket msg senderId receiverId content message_type image_data :
  present (ChatEvent.senderId msg) = Some senderId ->
  present (ChatEvent.receiverId msg) = Some receiverId ->
  insert_values msg = Some (content, message_type, image_data) ->
  let run := chat_message srv now true socket msg in
  let saved := Message.mk (messages_seq (pool srv)) senderId receiverId content
                          message_type image_data now in
  run = (mksrv (with_messages (pool srv) (messages (pool srv) ++ [saved])
                              (messages_seq (pool srv) + 1))
               (sockets srv),
         console_log "Received message:" :: pool_query saved
           :: map (fun s => socket_emit s "chat message" saved) (sockets srv))
  /\ messages (pool (fst run)) = messages (pool srv) ++ [saved]
  /\ nth_error (snd run) 1 = Some (pool_query saved)
  /\ (forall i s ev p,
        nth_error (snd run) i = Some (socket_emit s ev p) ->
        (1 < i)%nat /\ p = saved /\ In s (sockets srv))
  /\ (forall s, In s (sockets srv) ->
        exists i, (1 < i)%nat
                  /\ nth_error (snd run) i = Some (socket_emit s "chat message" saved))
  /\ (forall text, ~ In (console_error text) (snd run))
  /\ pool (fst (chat_message (mksrv (pool srv) []) now true socket msg)) = pool (fst run)
  /\ ((ChatEvent.messageType msg = Some "image" /\ message_type = "image"
       /\ content = None /\ image_data <> None
       /\ image_data = present (ChatEvent.imageData msg))
      \/ (image_payload msg = None /\ message_type = "text"
          /\ image_data = None /\ content <> None
          /\ content = present (ChatEvent.content msg))).
Proof.
  intros Hs Hr Hv run saved. subst run saved.
  rewrite (chat_message_saved srv now socket msg _ _ _ Hs Hr Hv).
  rewrite (chat_message_saved (mksrv (pool srv) []) now socket msg _ _ _ Hs Hr Hv).
  cbn [fst snd pool saved_row].
  split; [reflexivity|]. split; [reflexivity|]. split; [reflexivity|].
  split; [|split; [|split; [|split; [reflexivity|]]]].
  - intros i s ev p Hn.
    destruct i as [|[|i]]; [discriminate Hn | discriminate Hn |].
    cbn in Hn. apply nth_error_emit in Hn as (Hp & _ & Hin).
    split; [lia | auto].
  - intros s Hin.
    destruct (nth_error_emit_at (sockets srv)
                (Message.mk (messages_seq (pool srv)) senderId receiverId content
                            message_type image_data now) s Hin) as [i Hi].
    exists (S (S i)). split; [lia | exact Hi].
  - intros text [H|[H|H]]; try discriminate H.
    apply in_map_iff in H as [s [H _]]. discriminate H.
  - now apply insert_values_Some.
Qed.

Lemma chat_message_persists_then_emits_witness :
  chat_message (mksrv db0 [10; 20]) 7 true 10
    (ChatEvent.mk (Some 1) (Some 2) (Some "hi bob") None None)
  = (mksrv (with_messages db0 [Message.mk 1 1 2 (Some "hi bob") "text" None 7] 2)
           [10; 20],
     [console_log "Received message:";
      pool_query (Message.mk 1 1 2 (Some "hi bob") "text" None 7);
      socket_emit 10 "chat message" (Message.mk 1 1 2 (Some "hi bob") "text" None 7);
      socket_emit 20 "chat message" (Message.mk 1 1 2 (Some "hi bob") "text" None 7)]).
Proof.
  apply (chat_message_persists_then_emits (mksrv db0 [10; 20]) 7 10
           (ChatEvent.mk (Some 1) (Some 2) (Some "hi bob") None None)
           1 2 (Some "hi bob") "text" None eq_refl eq_refl eq_refl).
Defined.

(** The text branch: no image payload and a content. *)
Lemma insert_values_text msg content :
  image_payload msg = None -> present (ChatEvent.content msg) = Some content ->
  insert_values msg = Some (Some content, "text", None).
Proof. intros Hi Hc. unfold insert_values. now rewrite Hi, Hc. Qed.

Lemma insert_values_none msg :
  image_payload msg = None -> present (ChatEvent.content msg) = None ->
  insert_values msg = None.
Proof. intros Hi Hc. unfold insert_values. now rewrite Hi, Hc. Qed.

Lemma image_payload_without_data msg :
  present (ChatEvent.imageData msg) = None -> image_payload msg = None.
Proof.
  intros Hd. unfold image_payload. rewrite Hd.
  destruct (ChatEvent.messageType msg) as [ty|]; [destruct (ty =? "image")%string|];
    reflexivity.
Qed.

(** C10.  An event marked as an image whose [imageData] is absent or falsy
    is handled by the text branch: with a non-empty [content] it is stored
    as a row of type ["text"] holding that content, and that row is emitted
    to the connected sockets; without one, the handler logs
    ['Text message missing content'] and returns: nothing is stored and
    nothing is emitted, to the sender or to anyone. *)
Theorem chat_message_image_without_data srv now socket msg senderId receiverId :
  present (ChatEvent.senderId msg) = Some senderId ->
  present (ChatEvent.receiverId msg) = Some receiverId ->
  ChatEvent.messageType msg = Some "image" ->
  present (ChatEvent.imageData msg) = None ->
  (forall content,
     present (ChatEvent.content msg) = Some content ->
     chat_message srv now true socket msg =
     (mksrv (with_messages (pool srv)
               (messages (pool srv) ++ [text_row srv now senderId receiverId content])
               (messages_seq (pool srv) + 1))
            (sockets srv),
      console_log "Received message:"
        :: pool_query (text_row srv now senderId receiverId content)
        :: map (fun s => socket_emit s "chat message"
                           (text_row srv now senderId receiverId content))
               (sockets srv)))
  /\ (present (ChatEvent.content msg) = None ->
      forall store_ok,
        chat_message srv now store_ok socket msg =
        (srv, [console_log "Received message:";
               console_error "Text message missing content"])).
Proof.
  intros Hs Hr _ Hd. apply image_payload_without_data in Hd. split.
  - intros content Hc.
    apply (chat_message_saved srv now socket msg senderId receiverId
             (Some content, "text", None) Hs Hr).
    now apply insert_values_text.
  - intros Hc store_ok. unfold chat_message.
    now rewrite Hs, Hr, (insert_values_none _ Hd Hc).
Qed.

Lemma chat_message_image_without_data_witness :
  messages (pool (fst (chat_message (mksrv db0 [10; 20]) 7 true 10
     (ChatEvent.mk (Some 1) (Some 2) (Some "see this") (Some "image") None))))
  = [Message.mk 1 1 2 (Some "see this") "text" None 7]
  /\ chat_message (mksrv db0 [10; 20]) 7 true 10
       (ChatEvent.mk (Some 1) (Some 2) None (Some "image") (Some ""))
     = (mksrv db0 [10; 20],
        [console_log "Received message:"; console_error "Text message missing content"]).
Proof.
  split.
  - destruct (chat_message_image_without_data (mksrv db0 [10; 20]) 7 10
                (ChatEvent.mk (Some 1) (Some 2) (Some "see this") (Some "image") None)
                1 2 eq_refl eq_refl eq_refl eq_refl) as [Htext _].
    rewrite (Htext "see this" eq_refl). reflexivity.
  - destruct (chat_message_image_without_data (mksrv db0 [10; 20]) 7 10
                (ChatEvent.mk (Some 1) (Some 2) None (Some "image") (Some ""))
                1 2 eq_refl eq_refl eq_refl eq_refl) as [_ Hnone].
    apply Hnone. reflexivity.
Defined.

(** ** Who receives a message *)

(** C5 (as stated, refuted).  With [alice], [bob] and [carol] connected, it
    is not the case that a message from [alice] to [bob] is emitted only to
    sockets opened by one of the two: [carol]'s socket receives it as well. *)
Lemma chat_message_reaches_third_user :
  ~ (forall s ev p,
       In (socket_emit s ev p)
          (snd (chat_message srv0 7 true 10
                  (ChatEvent.mk (Some 1) (Some 2) (Some "hi bob") None None))) ->
       opened_by s = Message.sender_id p \/ opened_by s = Message.receiver_id p).
Proof.
  intros Hclaim.
  destruct (Hclaim 30 "chat message" (Message.mk 1 1 2 (Some "hi bob") "text" None 7))
    as [H|H]; try discriminate H.
  cbn. auto 6.
Qed.

(** C5 (amended).  A stored message is emitted to every socket connected to
    the server, whoever opened it, and to nothing else. *)
Theorem chat_message_broadcast srv now socket msg saved :
  In (pool_query saved) (snd (chat_message srv now true socket msg)) ->
  forall s ev p,
    In (socket_emit s ev p) (snd (chat_message srv now true socket msg))
    <-> In s (sockets srv) /\ ev = "chat message" /\ p = saved.
Proof.
  unfold chat_message.
  destruct (present (ChatEvent.senderId msg)) as [senderId|];
    [destruct (present (ChatEvent.receiverId msg)) as [receiverId|];
     [destruct (insert_values msg) as [[[content message_type] image_data]|]|]|].
  2-4: intros [H|[H|[]]]; discriminate H.
  cbn. intros [H|[H|H]]; try discriminate H.
  - injection H as <-. intros s ev p. split.
    + intros [H|[H|H]]; try discriminate H.
      apply in_map_iff in H as [s' [[= -> -> ->] Hin]]. auto.
    + intros (Hin & -> & ->). right. right.
      apply in_map_iff. exists s. auto.
  - apply in_map_iff in H as [s' [H _]]. discriminate H.
Qed.

Lemma chat_message_broadcast_witness :
  In (socket_emit 30 "chat message" (Message.mk 1 1 2 (Some "hi bob") "text" None 7))
     (snd (chat_message srv0 7 true 10
             (ChatEvent.mk (Some 1) (Some 2) (Some "hi bob") None None)))
  <-> In 30 (sockets srv0) /\ "chat message" = "chat message"
      /\ Message.mk 1 1 2 (Some "hi bob") "text" None 7
         = Message.mk 1 1 2 (Some "hi bob") "text" None 7.
Proof.
  apply (chat_message_broadcast srv0 7 10
           (ChatEvent.mk (Some 1) (Some 2) (Some "hi bob") None None)
           (Message.mk 1 1 2 (Some "hi bob") "text" None 7)).
  right. left. reflexivity.
Defined.

(** ** Validation of the content *)

(** C6 (as stated, refuted).  A text of 501 characters is stored and
    emitted; and for an event with neither content nor image payload the
    only effects are two lines on the server's console: no event reaches
    the socket of the caller. *)
Lemma chat_message_accepts_long_text :
  String.length long_text = 501%nat
  /\ chat_message srv0 7 true 10
       (ChatEvent.mk (Some 1) (Some 2) (Some long_text) (Some "text") None)
     = (mksrv (with_messages db0 [Message.mk 1 1 2 (Some long_text) "text" None 7] 2)
              [10; 20; 30],
        [console_log "Received message:";
         pool_query (Message.mk 1 1 2 (Some long_text) "text" None 7);
         socket_emit 10 "chat message" (Message.mk 1 1 2 (Some long_text) "text" None 7);
         socket_emit 20 "chat message" (Message.mk 1 1 2 (Some long_text) "text" None 7);
         socket_emit 30 "chat message" (Message.mk 1 1 2 (Some long_text) "text" None 7)])
  /\ chat_message srv0 7 true 10 (ChatEvent.mk (Some 1) (Some 2) None None None)
     = (srv0, [console_log "Received message:";
               console_error "Text message missing content"]).
Proof. repeat split; vm_compute; reflexivity. Qed.

Lemma long_content_present (content : string) :
  (500 < String.length content)%nat -> present (Some content) = Some content.
Proof.
  intros Hlen. apply present_truthy, truthy_string_iff.
  intros ->. cbn in Hlen. lia.
Qed.

(** C6 (amended).  The server puts no bound on the length of a text: a
    content longer than 500 characters is stored and emitted like any
    other.  An event with neither content nor image payload is not stored
    and not emitted; the handler writes the error to the server's console
    and sends nothing to the caller. *)
Theorem chat_message_content_checks srv now socket msg :
  (forall senderId receiverId content,
     present (ChatEvent.senderId msg) = Some senderId ->
     present (ChatEvent.receiverId msg) = Some receiverId ->
     image_payload msg = None ->
     ChatEvent.content msg = Some content ->
     (500 < String.length content)%nat ->
     messages (pool (fst (chat_message srv now true socket msg)))
     = messages (pool srv) ++ [text_row srv now senderId receiverId content]
     /\ forall s, In s (sockets srv) ->
          In (socket_emit s "chat message" (text_row srv now senderId receiverId content))
             (snd (chat_message srv now true socket msg)))
  /\ (present (ChatEvent.content msg) = None ->
      present (ChatEvent.imageData msg) = None ->
      forall store_ok,
        fst (chat_message srv now store_ok socket msg) = srv
        /\ exists text,
             snd (chat_message srv now store_ok socket msg) =
             [console_log "Received message:"; console_error text]).
Proof.
  split.
  - intros senderId receiverId content Hs Hr Hi Hc Hlen.
    assert (Hv : insert_values msg = Some (Some content, "text", None)).
    { apply insert_values_text; [exact Hi|]. rewrite Hc.
      now apply long_content_present. }
    rewrite (chat_message_saved srv now socket msg _ _ _ Hs Hr Hv).
    split; [reflexivity|].
    intros s Hin. right. right. apply in_map_iff. exists s. auto.
  - intros Hc Hd store_ok. apply chat_message_dropped.
    apply insert_values_none; [|exact Hc]. now apply image_payload_without_data.
Qed.

Lemma chat_message_content_checks_witness :
  messages (pool (fst (chat_message srv0 7 true 10
     (ChatEvent.mk (Some 1) (Some 2) (Some long_text) (Some "text") None))))
  = [Message.mk 1 1 2 (Some long_text) "text" None 7]
  /\ fst (chat_message srv0 7 true 10 (ChatEvent.mk (Some 1) (Some 2) None None None))
     = srv0.
Proof.
  split.
  - destruct (chat_message_content_checks srv0 7 10
                (ChatEvent.mk (Some 1) (Some 2) (Some long_text) (Some "text") None))
      as [Hlong _].
    destruct (Hlong 1 2 long_text eq_refl eq_refl eq_refl eq_refl) as [Hstored _].
    + vm_compute. lia.
    + exact Hstored.
  - destruct (chat_message_content_checks srv0 7 10
                (ChatEvent.mk (Some 1) (Some 2) None None None)) as [_ Hnone].
    apply (Hnone eq_refl eq_refl true).
Defined.

(** ** [ORDER BY] *)

Section OrderBy.
Context {A : Type}.
Variable key : A -> Z.

Lemma insert_by_perm (x : A) (l : list A) :
  Permutation (insert_by (ascending key) x l) (x :: l).
Proof.
  induction l as [|y l IH]; cbn; [reflexivity|].
  destruct (ascending key x y); [reflexivity|].
  rewrite IH. apply perm_swap.
Qed.

Lemma order_by_perm (l : list A) : Permutation (order_by (ascending key) l) l.
Proof.
  induction l as [|x l IH]; cbn; [reflexivity|].
  unfold order_by in IH. rewrite insert_by_perm. now apply perm_skip.
Qed.

Lemma insert_by_hd (a x : A) (l : list A) :
  key a <= key x ->
  HdRel (fun a b => key a <= key b) a l ->
  HdRel (fun a b => key a <= key b) a (insert_by (ascending key) x l).
Proof.
  intros Hax Hl. destruct l as [|y l]; cbn; [now constructor|].
  destruct (ascending key x y); constructor; [exact Hax|].
  now inversion Hl.
Qed.

Lemma insert_by_sorted (x : A) (l : list A) :
  Sorted (fun a b => key a <= key b) l ->
  Sorted (fun a b => key a <= key b) (insert_by (ascending key) x l).
Proof.
  induction l as [|y l IH]; intros Hl; cbn.
  - repeat constructor.
  - destruct (ascending key x y) eqn:E; unfold ascending in E.
    + constructor; [exact Hl|]. constructor. lia.
    + inversion Hl as [|? ? Hs Hh]; subst. constructor; [now apply IH|].
      apply insert_by_hd; [lia | exact Hh].
Qed.

Lemma order_by_sorted (l : list A) :
  StronglySorted (fun a b => key a <= key b) (order_by (ascending key) l).
Proof.
  apply Sorted_StronglySorted.
  - intros a b c Hab Hbc. lia.
  - induction l as [|x l IH]; cbn; [constructor|]. now apply insert_by_sorted.
Qed.
End OrderBy.

(** ** Conversation history *)

Lemma insert_values_payload msg content message_type image_data senderId receiverId id now :
  insert_values msg = Some (content, message_type, image_data) ->
  payload_matches_type
    (Message.mk id senderId receiverId content message_type image_data now).
Proof.
  unfold insert_values, payload_matches_type. cbn.
  destruct (image_payload msg) as [img|] eqn:Hi.
  - intros [= <- <- <-]. right. repeat split. exists img. split; [reflexivity|].
    unfold image_payload in Hi.
    destruct (ChatEvent.messageType msg) as [ty|]; [|discriminate].
    destruct (ty =? "image")%string; [|discriminate].
    apply present_Some in Hi as [_ Hi]. now apply truthy_string_iff.
  - destruct (present (ChatEvent.content msg)) as [c|] eqn:Hc; [|discriminate].
    intros [= <- <- <-]. left. repeat split. exists c. split; [reflexivity|].
    apply present_Some in Hc as [_ Hc]. now apply truthy_string_iff.
Qed.

(** Every row the chat handler stores has a payload that matches its type. *)
Lemma chat_message_payload_matches_type srv now store_ok socket msg :
  Forall payload_matches_type (messages (pool srv)) ->
  Forall payload_matches_type
         (messages (pool (fst (chat_message srv now store_ok socket msg)))).
Proof.
  intros Hall. unfold chat_message.
  destruct (present (ChatEvent.senderId msg)) as [senderId|]; [|exact Hall].
  destruct (present (ChatEvent.receiverId msg)) as [receiverId|]; [|exact Hall].
  destruct (insert_values msg) as [[[content message_type] image_data]|] eqn:Hv;
    [|exact Hall].
  destruct store_ok; [|exact Hall].
  cbn. apply Forall_app. split; [exact Hall|].
  constructor; [|constructor]. eapply insert_values_payload, Hv.
Qed.

(** The other requests leave the [messages] table as it is, so every stored
    row has a payload that matches its type once the table starts empty. *)
Lemma payload_matches_type_handle now req srv :
  Forall payload_matches_type (messages (pool srv)) ->
  Forall payload_matches_type (messages (handle now req srv)).
Proof.
  intros Hall. destruct req; cbn [handle]; try exact Hall.
  - unfold register. handler_cases; exact Hall.
  - unfold login. handler_cases; exact Hall.
  - unfold add_friend, add_friend_with. handler_cases; exact Hall.
  - unfold add_friend_rev, add_friend_with. handler_cases; exact Hall.
  - unfold send_friend_request. handler_cases; exact Hall.
  - now rewrite accept_friend_request_rolls_back.
  - unfold decline_friend_request, declineQuery. handler_cases; exact Hall.
  - now apply chat_message_payload_matches_type.
Qed.

Lemma in_conversation_true userId friendId m :
  in_conversation userId friendId m = true <->
  (Message.sender_id m = userId /\ Message.receiver_id m = friendId)
  \/ (Message.sender_id m = friendId /\ Message.receiver_id m = userId).
Proof. apply either_direction_true. Qed.

Lemma get_messages_perm db userId friendId :
  Permutation (get_messages db userId friendId)
              (filter (in_conversation userId friendId) (messages db)).
Proof. apply (order_by_perm Message.created_at). Qed.

Lemma get_messages_In db userId friendId m :
  In m (get_messages db userId friendId) <->
  In m (messages db) /\ in_conversation userId friendId m = true.
Proof.
  rewrite <- filter_In. split; apply Permutation_in.
  - apply get_messages_perm.
  - symmetry. apply get_messages_perm.
Qed.

(** C7.  The history of two users is the stored messages exchanged between
    them in either direction, each exactly once, by ascending creation
    time; the rows come back as stored, with their type and the payload
    column that goes with it; and a text ["hello"] sent from one user to
    another is found in their history with that content, type ["text"],
    the two ids, and the timestamp the store gave it, not earlier than the
    call. *)
Theorem get_messages_history db userId friendId :
  Permutation (get_messages db userId friendId)
              (filter (in_conversation userId friendId) (messages db))
  /\ (forall m,
        In m (get_messages db userId friendId) <->
        In m (messages db)
        /\ ((Message.sender_id m = userId /\ Message.receiver_id m = friendId)
            \/ (Message.sender_id m = friendId /\ Message.receiver_id m = userId)))
  /\ StronglySorted (fun m1 m2 => Message.created_at m1 <= Message.created_at m2)
                    (get_messages db userId friendId)
  /\ (Forall payload_matches_type (messages db) ->
      Forall payload_matches_type (get_messages db userId friendId))
  /\ (forall sockets socket messageType called_at now,
        truthy userId = true -> truthy friendId = true -> called_at <= now ->
        let sent_db :=
          pool (fst (chat_message (mksrv db sockets) now true socket
                     (ChatEvent.mk (Some userId) (Some friendId) (Some "hello")
                                   messageType None))) in
        exists m,
          In m (get_messages sent_db userId friendId)
          /\ Message.content m = Some "hello" /\ Message.message_type m = "text"
          /\ Message.image_data m = None
          /\ Message.sender_id m = userId /\ Message.receiver_id m = friendId
          /\ called_at <= Message.created_at m).
Proof.
  split; [apply get_messages_perm|]. split; [|split; [|split]].
  - intros m. rewrite get_messages_In, in_conversation_true. reflexivity.
  - apply (order_by_sorted Message.created_at).
  - intros Hall. apply Forall_forall. intros m Hm.
    apply get_messages_In in Hm as [Hm _].
    revert m Hm. now apply Forall_forall.
  - intros sockets socket messageType called_at now Hu Hf Hcall sent_db.
    subst sent_db.
    rewrite (chat_message_saved (mksrv db sockets) now socket _ userId friendId
               (Some "hello", "text", None)).
    + exists (Message.mk (messages_seq db) userId friendId (Some "hello") "text" None now).
      cbn [fst pool saved_row]. repeat split; try assumption.
      apply get_messages_In. split.
      * cbn. apply in_or_app. right. left. reflexivity.
      * apply in_conversation_true. left. auto.
    + cbn. now apply present_truthy.
    + cbn. now apply present_truthy.
    + apply insert_values_text; [|reflexivity].
      apply image_payload_without_data. reflexivity.
Qed.

Lemma get_messages_history_witness :
  exists m,
    In m (get_messages
            (pool (fst (chat_message (mksrv db0 [10; 20]) 7 true 10
                          (ChatEvent.mk (Some 1) (Some 2) (Some "hello") (Some "text")
                                        None))))
            1 2)
    /\ Message.content m = Some "hello" /\ Message.message_type m = "text"
    /\ Message.sender_id m = 1 /\ Message.receiver_id m = 2
    /\ 5 <= Message.created_at m.
Proof.
  destruct (get_messages_history db0 1 2) as (_ & _ & _ & _ & Hsend).
  destruct (Hsend [10; 20] 10 (Some "text") 5 7 eq_refl eq_refl ltac:(lia))
    as (m & Hin & Hc & Hty & _ & Hs & Hr & Hat).
  exists m. auto 6.
Defined.

(** ** The friendships table under every operation *)

Lemma add_friend_with_friendships re db userId friendUsername :
  friendships (fst (add_friend_with re db userId friendUsername))
  = friendships db ++ added_friendship db userId friendUsername.
Proof.
  unfold add_friend_with, added_friendship.
  destruct (present userId) as [u|]; [|now rewrite app_nil_r].
  destruct (present friendUsername) as [n|]; [|now rewrite app_nil_r].
  destruct (select_user_by_username db n) as [|friend ?]; [now rewrite app_nil_r|].
  destruct (nonempty _); [now rewrite app_nil_r | reflexivity].
Qed.

Lemma register_friendships db passwordHash username password name :
  friendships (fst (register db passwordHash username password name)) = friendships db.
Proof. unfold register. handler_cases; reflexivity. Qed.

Lemma login_friendships db now isMatch username password :
  friendships (fst (login db now isMatch username password)) = friendships db.
Proof. unfold login. handler_cases; reflexivity. Qed.

Lemma send_friend_request_friendships db now senderId receiverUsername :
  friendships (fst (send_friend_request db now senderId receiverUsername))
  = friendships db.
Proof. unfold send_friend_request. handler_cases; reflexivity. Qed.

Lemma decline_friend_request_friendships db now requestId userId :
  friendships (fst (decline_friend_request db now requestId userId)) = friendships db.
Proof. unfold decline_friend_request, declineQuery. handler_cases; reflexivity. Qed.

Lemma chat_message_friendships srv now store_ok socket msg :
  friendships (pool (fst (chat_message srv now store_ok socket msg)))
  = friendships (pool srv).
Proof. unfold chat_message. handler_cases; reflexivity. Qed.

(** C8 (as stated, refuted).  [/add-friend] stores a friendship between
    [alice] and [bob] although no friend request exists, accepted or
    otherwise. *)
Lemma add_friend_without_request :
  friend_requests db0 = []
  /\ add_friend db0 (Some 1) (Some "bob")
     = (with_friendships db0 [Friendship.mk 1 2],
        mkres 201 (message "Friend added successfully"))
  /\ friend_requests (fst (add_friend db0 (Some 1) (Some "bob"))) = [].
Proof. repeat split. Qed.

(** C8 (amended).  Whatever request the server handles, the friendships
    stored before it are still stored after it, unchanged and in place:
    rows are only ever appended.  [/add-friend] appends the friendship of
    the caller and the named user, without any friend request, when that
    user exists and the two have no friendship in either direction; the
    requests other than [/add-friend] and [/accept-friend-request] append
    nothing. *)
Theorem friendships_append_only now req srv :
  exists appended,
    friendships (handle now req srv) = friendships (pool srv) ++ appended
    /\ match req with
       | AddFriend userId friendUsername | AddFriendRev userId friendUsername =>
           appended = added_friendship (pool srv) userId friendUsername
       | AcceptFriendRequest _ _ => True
       | _ => appended = []
       end.
Proof.
  destruct req; cbn [handle].
  3, 4: eexists; split; [apply add_friend_with_friendships | reflexivity].
  all: exists []; rewrite app_nil_r; split; try reflexivity.
  - apply register_friendships.
  - apply login_friendships.
  - apply send_friend_request_friendships.
  - now rewrite accept_friend_request_rolls_back.
  - apply decline_friend_request_friendships.
  - apply chat_message_friendships.
Qed.

(** * Further properties of the handlers *)

(** ** Accounts *)

Lemma select_user_none db username :
  select_user_by_username db username = [] <-> ~ In username (usernames db).
Proof.
  unfold select_user_by_username, usernames. split.
  - intros Hnone Hin. apply in_map_iff in Hin as [u [Hu Hin]].
    assert (Hf : In u (filter (fun u => (User.username u =? username)%string) (users db))).
    { apply filter_In. split; [exact Hin|]. now apply String.eqb_eq. }
    rewrite Hnone in Hf. destruct Hf.
  - intros Hnot.
    destruct (filter _ (users db)) as [|u rest] eqn:Hf; [reflexivity|].
    exfalso. apply Hnot.
    assert (Hin : In u (filter (fun u => (User.username u =? username)%string) (users db)))
      by (rewrite Hf; now left).
    apply filter_In in Hin as [Hin Heq]. apply String.eqb_eq in Heq.
    apply in_map_iff. exists u. auto.
Qed.

Lemma NoDup_snoc {A} (l : list A) (x : A) : NoDup l -> ~ In x l -> NoDup (l ++ [x]).
Proof.
  intros Hl Hx. apply NoDup_app; [exact Hl | repeat constructor; intros [] |].
  intros y Hy [<-|[]]. contradiction.
Qed.

Lemma usernames_snoc db row seq :
  usernames (with_users db (users db ++ [row]) seq) = usernames db ++ [User.username row].
Proof. unfold usernames. cbn. now rewrite map_app. Qed.

Lemma login_users db now isMatch username password :
  usernames (fst (login db now isMatch username password)) = usernames db
  /\ credentials (fst (login db now isMatch username password)) = credentials db.
Proof.
  unfold login, usernames, credentials.
  destruct (present username) as [u|]; [|auto].
  destruct (present password); [|auto].
  destruct (select_user_by_username db u) as [|user ?]; [auto|].
  destruct isMatch; [|auto].
  cbn. rewrite !map_map.
  split; apply map_ext; intros a; destruct (User.id a =? User.id user); reflexivity.
Qed.

(** X1.  No handler that writes the [users] table breaks the uniqueness of
    usernames: registering (in either revision) appends a user only under a
    username nobody holds, and logging in renames nobody. *)
Theorem usernames_stay_unique db now isMatch hash name username password :
  NoDup (usernames db) ->
  NoDup (usernames (fst (register db hash username password name)))
  /\ NoDup (usernames (fst (register_rev db hash name username password)))
  /\ NoDup (usernames (fst (login db now isMatch username password))).
Proof.
  intros Hnd. split; [|split].
  - unfold register.
    destruct (present username) as [u|]; [|exact Hnd].
    destruct (present password); [|exact Hnd].
    destruct (nonempty _) eqn:He; [exact Hnd|].
    apply nonempty_false, select_user_none in He.
    cbn [fst]. rewrite usernames_snoc. now apply NoDup_snoc.
  - unfold register_rev.
    destruct (present name); [|exact Hnd].
    destruct (present username) as [u|]; [|exact Hnd].
    destruct (present password); [|exact Hnd].
    destruct (nonempty _) eqn:He; [exact Hnd|].
    apply nonempty_false, select_user_none in He.
    cbn [fst]. rewrite usernames_snoc. now apply NoDup_snoc.
  - destruct (login_users db now isMatch username password) as [-> _]. exact Hnd.
Qed.

Lemma usernames_stay_unique_witness :
  NoDup (usernames (fst (register db0 "$2b$10$d" (Some "dave") (Some "pw") None)))
  /\ NoDup (usernames (fst (register db0 "$2b$10$d" (Some "bob") (Some "pw") None))).
Proof.
  assert (Hnd : NoDup (usernames db0)).
  { repeat constructor; cbn; intuition discriminate. }
  split.
  - apply (usernames_stay_unique db0 0 true "$2b$10$d" None (Some "dave") (Some "pw") Hnd).
  - apply (usernames_stay_unique db0 0 true "$2b$10$d" None (Some "bob") (Some "pw") Hnd).
Defined.

Lemma display_name_present name username :
  truthy username = true ->
  present (Some (display_name name username)) = Some (display_name name username).
Proof.
  intros Hu. unfold display_name.
  destruct (present name) as [n|] eqn:Hn.
  - apply present_Some in Hn as [_ Hn]. now apply present_truthy.
  - now apply present_truthy.
Qed.

(** X2.  Registering a free username and then logging in under it with the
    password accepted gives back the very account the registration
    returned: the id the store assigned, the username, and the name, which
    is the username when no name was given.  With the password refused the
    answer is 401. *)
Theorem register_then_login db hash now username password name u :
  present username = Some u ->
  truthy password = true ->
  select_user_by_username db u = [] ->
  let registered := register db hash username (Some password) name in
  let acct := account (users_seq db) u (display_name name u) in
  snd registered = mkres 201 acct
  /\ snd (login (fst registered) now true username (Some password)) = mkres 200 acct
  /\ snd (login (fst registered) now false username (Some password))
     = mkres 401 (error "Invalid username or password").
Proof.
  intros Hu Hp Hfree registered acct. subst registered acct.
  pose proof Hu as Hu'. apply present_Some in Hu' as [_ Htu].
  unfold register, login. rewrite Hu, (present_truthy _ Hp), Hfree. cbn [nonempty List.length Nat.ltb Nat.leb fst snd].
  fold (display_name name u).
  unfold select_user_by_username in *. cbn [users with_users].
  rewrite filter_app, Hfree. cbn [filter User.username app].
  rewrite String.eqb_refl. cbn [User.id User.username User.name].
  rewrite (display_name_present name u Htu). auto.
Qed.

Lemma register_then_login_witness :
  snd (login (fst (register db0 "$2b$10$d" (Some "dave") (Some "pw") None))
             9 true (Some "dave") (Some "pw"))
  = mkres 200 (account 4 "dave" "dave").
Proof.
  apply (register_then_login db0 "$2b$10$d" 9 (Some "dave") "pw" None "dave"
           eq_refl eq_refl eq_refl).
Defined.

(** X3.  A login changes nothing of any user but [last_login]; and a
    login that fails, be it for an unknown username or for a refused
    password, leaves the store as it was and answers with one and the same
    401 reply. *)
Theorem login_failures_alike db now username password u p :
  present username = Some u -> present password = Some p ->
  (forall isMatch,
     credentials (fst (login db now isMatch username password)) = credentials db)
  /\ login db now false username password
     = (db, mkres 401 (error "Invalid username or password"))
  /\ (select_user_by_username db u = [] ->
      forall isMatch,
        login db now isMatch username password
        = (db, mkres 401 (error "Invalid username or password"))).
Proof.
  intros Hu Hp. split; [|split].
  - intros isMatch. apply login_users.
  - unfold login. rewrite Hu, Hp.
    destruct (select_user_by_username db u); reflexivity.
  - intros Hnone isMatch. unfold login. now rewrite Hu, Hp, Hnone.
Qed.

Lemma login_failures_alike_witness :
  login db0 9 false (Some "alice") (Some "guess")
  = login db0 9 true (Some "nobody") (Some "guess").
Proof.
  destruct (login_failures_alike db0 9 (Some "alice") (Some "guess") "alice" "guess"
              eq_refl eq_refl) as (_ & Hwrong & _).
  destruct (login_failures_alike db0 9 (Some "nobody") (Some "guess") "nobody" "guess"
              eq_refl eq_refl) as (_ & _ & Hunknown).
  rewrite Hwrong, (Hunknown eq_refl true). reflexivity.
Defined.

(** ** Adding friends directly *)

Lemma select_user_In db username user rest :
  select_user_by_username db username = user :: rest ->
  In user (users db) /\ User.username user = username.
Proof.
  intros Hsel.
  assert (Hin : In user (select_user_by_username db username))
    by (rewrite Hsel; now left).
  apply filter_In in Hin as [Hin Heq]. apply String.eqb_eq in Heq. auto.
Qed.

Lemma add_friend_added db userId friendUsername friend rest :
  truthy userId = true -> truthy friendUsername = true ->
  select_user_by_username db friendUsername = friend :: rest ->
  checkFriendshipQuery db userId (User.id friend) = [] ->
  add_friend db (Some userId) (Some friendUsername)
  = (with_friendships db (friendships db ++ [Friendship.mk userId (User.id friend)]),
     mkres 201 (message "Friend added successfully")).
Proof.
  intros Hu Hn Hsel Hnone. unfold add_friend, add_friend_with.
  rewrite !present_truthy by assumption. now rewrite Hsel, Hnone.
Qed.

Lemma add_friend_conflict db userId friendUsername friend rest :
  truthy userId = true -> truthy friendUsername = true ->
  select_user_by_username db friendUsername = friend :: rest ->
  checkFriendshipQuery db userId (User.id friend) <> [] ->
  add_friend db (Some userId) (Some friendUsername)
  = (db, mkres 409 (error "Friendship already exists")).
Proof.
  intros Hu Hn Hsel Hsome. unfold add_friend, add_friend_with.
  rewrite !present_truthy by assumption. rewrite Hsel.
  destruct (nonempty _) eqn:He; [reflexivity|].
  apply nonempty_false in He. contradiction.
Qed.

(** X4.  [/add-friend] makes the friendship visible from both sides: once a
    registered user has added another user, each of the two is in the
    friend list of the other. *)
Theorem add_friend_makes_friends db userId friendUsername me friend rest :
  truthy userId = true -> truthy friendUsername = true ->
  In me (users db) -> User.id me = userId ->
  select_user_by_username db friendUsername = friend :: rest ->
  User.id friend <> userId ->
  checkFriendshipQuery db userId (User.id friend) = [] ->
  let after := add_friend db (Some userId) (Some friendUsername) in
  snd after = mkres 201 (message "Friend added successfully")
  /\ In (User.id friend) (friend_ids (fst after) userId)
  /\ In userId (friend_ids (fst after) (User.id friend)).
Proof.
  intros Hu Hn Hme Hid Hsel Hne Hnone after. subst after.
  rewrite (add_friend_added _ _ _ _ _ Hu Hn Hsel Hnone). cbn [fst snd].
  split; [reflexivity|].
  apply select_user_In in Hsel as [Hfriend _]. subst userId.
  apply (friends_either_side _ (Friendship.mk (User.id me) (User.id friend)) me friend);
    cbn; auto.
  apply in_or_app. right. now left.
Qed.

Lemma add_friend_makes_friends_witness :
  let after := add_friend db0 (Some 1) (Some "bob") in
  In 2 (friend_ids (fst after) 1) /\ In 1 (friend_ids (fst after) 2).
Proof.
  apply (add_friend_makes_friends db0 1 "bob" alice bob []); try reflexivity.
  - left. reflexivity.
  - discriminate.
Defined.

Lemma friends_ignore_self_row db userId x :
  friends (with_friendships db (friendships db ++ [Friendship.mk userId userId])) x
  = friends db x.
Proof.
  unfold friends. cbn [users friendships with_friendships].
  apply flat_map_ext. intros u. rewrite flat_map_app. cbn [flat_map Friendship.user1_id Friendship.user2_id].
  destruct (User.id u =? userId) eqn:Hu; destruct (userId =? x) eqn:Hx;
    destruct (User.id u =? x) eqn:Hux; cbn; rewrite ?app_nil_r; try reflexivity.
  apply Z.eqb_eq in Hu, Hx. apply Z.eqb_neq in Hux. congruence.
Qed.

(** X5.  [/add-friend] does not refuse a user who names themselves: the
    row of the user with themselves is stored and the reply is 201; but no
    friend list changes, and the user is not listed as their own friend. *)
Theorem add_friend_to_self db userId friendUsername me rest :
  truthy userId = true -> truthy friendUsername = true ->
  select_user_by_username db friendUsername = me :: rest ->
  User.id me = userId ->
  checkFriendshipQuery db userId userId = [] ->
  let after := add_friend db (Some userId) (Some friendUsername) in
  after = (with_friendships db (friendships db ++ [Friendship.mk userId userId]),
           mkres 201 (message "Friend added successfully"))
  /\ (forall x, friends (fst after) x = friends db x)
  /\ ~ In userId (friend_ids (fst after) userId).
Proof.
  intros Hu Hn Hsel Hid Hnone after. subst after userId.
  rewrite (add_friend_added _ _ _ _ _ Hu Hn Hsel Hnone). cbn [fst].
  split; [reflexivity|]. split.
  - intros x. apply friends_ignore_self_row.
  - intros Hin. apply friend_ids_spec in Hin as (_ & _ & _ & _ & _ & Hne & _).
    now apply Hne.
Qed.

Lemma add_friend_to_self_witness :
  add_friend db0 (Some 1) (Some "alice")
  = (with_friendships db0 [Friendship.mk 1 1],
     mkres 201 (message "Friend added successfully"))
  /\ friends (fst (add_friend db0 (Some 1) (Some "alice"))) 1 = [].
Proof.
  destruct (add_friend_to_self db0 1 "alice" alice [] eq_refl eq_refl eq_refl eq_refl
              eq_refl) as (Hrow & Hlists & _).
  split; [exact Hrow | apply Hlists].
Defined.

Lemma checkFriendshipQuery_swap db p1 p2 :
  checkFriendshipQuery db p1 p2 = checkFriendshipQuery db p2 p1.
Proof.
  unfold checkFriendshipQuery. apply filter_ext. intros f. apply either_direction_swap.
Qed.

Lemma checkFriendshipQuery_after_add db p1 p2 :
  checkFriendshipQuery (with_friendships db (friendships db ++ [Friendship.mk p1 p2])) p1 p2
  <> [].
Proof.
  unfold checkFriendshipQuery. cbn [friendships with_friendships].
  rewrite filter_app. cbn. unfold either_direction at 2. cbn.
  rewrite !Z.eqb_refl. cbn. intros H. apply app_eq_nil in H as [_ H]. discriminate H.
Qed.

(** X6.  Adding a friend a second time is refused, whoever of the two asks:
    after [/add-friend] has stored the friendship, the same request and the
    request of the other user naming the first both get 409 and leave the
    store as it is. *)
Theorem add_friend_twice db userId friendUsername myUsername me friend rest rest' :
  truthy userId = true -> truthy friendUsername = true -> truthy myUsername = true ->
  truthy (User.id friend) = true ->
  select_user_by_username db friendUsername = friend :: rest ->
  select_user_by_username db myUsername = me :: rest' ->
  User.id me = userId ->
  checkFriendshipQuery db userId (User.id friend) = [] ->
  let added := fst (add_friend db (Some userId) (Some friendUsername)) in
  add_friend added (Some userId) (Some friendUsername)
  = (added, mkres 409 (error "Friendship already exists"))
  /\ add_friend added (Some (User.id friend)) (Some myUsername)
     = (added, mkres 409 (error "Friendship already exists")).
Proof.
  intros Hu Hn Hm Hf Hsel Hme Hid Hnone added. subst added.
  rewrite (add_friend_added _ _ _ _ _ Hu Hn Hsel Hnone). cbn [fst]. split.
  - apply (add_friend_conflict _ _ _ friend rest); auto.
    apply checkFriendshipQuery_after_add.
  - apply (add_friend_conflict _ _ _ me rest'); auto.
    rewrite Hid, checkFriendshipQuery_swap. apply checkFriendshipQuery_after_add.
Qed.

Lemma add_friend_twice_witness :
  let added := fst (add_friend db0 (Some 1) (Some "bob")) in
  add_friend added (Some 1) (Some "bob")
  = (added, mkres 409 (error "Friendship already exists"))
  /\ add_friend added (Some 2) (Some "alice")
     = (added, mkres 409 (error "Friendship already exists")).
Proof.
  apply (add_friend_twice db0 1 "bob" "alice" alice bob [] []); reflexivity.
Defined.

Lemma unordered_eq f p1 p2 :
  unordered f = unordered (Friendship.mk p1 p2) ->
  either_direction (Friendship.user1_id f) (Friendship.user2_id f) p1 p2 = true.
Proof.
  unfold unordered. cbn. intros [= Hmin Hmax].
  apply either_direction_true. lia.
Qed.

Lemma unordered_fresh db p1 p2 :
  checkFriendshipQuery db p1 p2 = [] ->
  ~ In (unordered (Friendship.mk p1 p2)) (map unordered (friendships db)).
Proof.
  intros Hnone Hin. apply in_map_iff in Hin as [f [Heq Hin]].
  assert (Hq : In f (checkFriendshipQuery db p1 p2)).
  { apply filter_In. split; [exact Hin|]. now apply unordered_eq. }
  rewrite Hnone in Hq. destruct Hq.
Qed.

Lemma added_friendship_unique db userId friendUsername :
  NoDup (map unordered (friendships db)) ->
  NoDup (map unordered (friendships db ++ added_friendship db userId friendUsername)).
Proof.
  intros Hnd. unfold added_friendship.
  destruct (present userId) as [u|]; [|now rewrite app_nil_r].
  destruct (present friendUsername) as [n|]; [|now rewrite app_nil_r].
  destruct (select_user_by_username db n) as [|friend ?]; [now rewrite app_nil_r|].
  destruct (nonempty _) eqn:He; [now rewrite app_nil_r|].
  apply nonempty_false in He.
  rewrite map_app. cbn [map]. apply NoDup_snoc; [exact Hnd|].
  now apply unordered_fresh.
Qed.

(** X7.  At most one friendship row per unordered pair of users: if the
    table has no two rows for the same pair, in either order, no request
    the server handles produces one. *)
Theorem friendships_stay_unique now req srv :
  NoDup (map unordered (friendships (pool srv))) ->
  NoDup (map unordered (friendships (handle now req srv))).
Proof.
  intros Hnd. destruct req; cbn [handle]; try exact Hnd.
  - now rewrite register_friendships.
  - now rewrite login_friendships.
  - unfold add_friend. rewrite add_friend_with_friendships.
    now apply added_friendship_unique.
  - unfold add_friend_rev. rewrite add_friend_with_friendships.
    now apply added_friendship_unique.
  - now rewrite send_friend_request_friendships.
  - now rewrite accept_friend_request_rolls_back.
  - now rewrite decline_friend_request_friendships.
  - now rewrite chat_message_friendships.
Qed.

Lemma friendships_stay_unique_witness :
  NoDup (map unordered
           (friendships
              (handle 0 (AddFriend (Some 2) (Some "alice"))
                 (mksrv (fst (add_friend db0 (Some 1) (Some "bob"))) [])))).
Proof.
  apply friendships_stay_unique. cbn. repeat constructor. intros [].
Defined.

(** ** Incoming requests *)

Lemma insert_by_ext {A} (le le' : A -> A -> bool) (x : A) (l : list A) :
  (forall a b, le a b = le' a b) -> insert_by le x l = insert_by le' x l.
Proof.
  intros Hle. induction l as [|y l IH]; cbn; [reflexivity|].
  now rewrite Hle, IH.
Qed.

Lemma order_by_ext {A} (le le' : A -> A -> bool) (l : list A) :
  (forall a b, le a b = le' a b) -> order_by le l = order_by le' l.
Proof.
  intros Hle. induction l as [|x l IH]; cbn; [reflexivity|].
  unfold order_by in IH. rewrite IH. now apply insert_by_ext.
Qed.

Lemma descending_ascending {A} (key : A -> Z) (a b : A) :
  descending key a b = ascending (fun x => - key x) a b.
Proof.
  unfold descending, ascending.
  destruct (Z.leb_spec (key b) (key a)), (Z.leb_spec (- key a) (- key b));
    try reflexivity; lia.
Qed.

Lemma order_by_descending_perm {A} (key : A -> Z) (l : list A) :
  Permutation (order_by (descending key) l) l.
Proof.
  rewrite (order_by_ext _ _ l (descending_ascending key)).
  apply order_by_perm.
Qed.

Lemma order_by_descending_sorted {A} (key : A -> Z) (l : list A) :
  StronglySorted (fun a b => key b <= key a) (order_by (descending key) l).
Proof.
  rewrite (order_by_ext _ _ l (descending_ascending key)).
  pose proof (order_by_sorted (fun x => - key x) l) as Hs.
  induction Hs as [|a l' Hs IH Hall]; constructor; [exact IH|].
  apply Forall_forall. intros b Hb.
  rewrite Forall_forall in Hall. specialize (Hall b Hb). lia.
Qed.

(** The rows of the join before [ORDER BY]. *)
Lemma get_friend_requests_In db userId row :
  In row (get_friend_requests db userId) <->
  exists fr u,
    In fr (friend_requests db) /\ In u (users db)
    /\ FriendRequest.sender_id fr = User.id u
    /\ FriendRequest.receiver_id fr = userId
    /\ FriendRequest.status fr = "pending"
    /\ row = mkincoming (FriendRequest.id fr) (FriendRequest.sender_id fr)
               (User.username u) (User.name u) (FriendRequest.created_at fr).
Proof.
  unfold get_friend_requests. split.
  - intros Hin. apply (Permutation_in _ (order_by_descending_perm sent_at _)) in Hin.
    apply in_flat_map in Hin as [fr [Hfr Hin]].
    apply in_flat_map in Hin as [u [Hu Hin]].
    destruct (_ && _) eqn:Hc in Hin; [|destruct Hin].
    destruct Hin as [<-|[]].
    apply andb_true_iff in Hc as [Hc Hst]. apply andb_true_iff in Hc as [Hs Hr].
    apply Z.eqb_eq in Hs, Hr. apply String.eqb_eq in Hst.
    exists fr, u. auto 8.
  - intros (fr & u & Hfr & Hu & Hs & Hr & Hst & ->).
    apply (Permutation_in _ (Permutation_sym (order_by_descending_perm sent_at _))).
    apply in_flat_map. exists fr. split; [exact Hfr|].
    apply in_flat_map. exists u. split; [exact Hu|].
    rewrite Hs, Hr, Hst, !Z.eqb_refl. cbn. now left.
Qed.

(** X8.  The incoming requests of a user are listed newest first, and the
    list holds exactly the stored requests that are still pending and
    addressed to that user, each under the username and name of the user
    who sent it: every such request is listed, and nothing else is. *)
Theorem get_friend_requests_newest_first db userId :
  StronglySorted (fun a b => sent_at b <= sent_at a) (get_friend_requests db userId)
  /\ forall row,
       In row (get_friend_requests db userId) <->
       exists fr u,
         In fr (friend_requests db) /\ In u (users db)
         /\ FriendRequest.status fr = "pending"
         /\ FriendRequest.receiver_id fr = userId
         /\ User.id u = FriendRequest.sender_id fr
         /\ row = mkincoming (FriendRequest.id fr) (FriendRequest.sender_id fr)
                    (User.username u) (User.name u) (FriendRequest.created_at fr).
Proof.
  split.
  - apply order_by_descending_sorted.
  - intros row. rewrite get_friend_requests_In. split.
    + intros (fr & u & Hfr & Hu & Hs & Hr & Hst & ->). exists fr, u. auto 8.
    + intros (fr & u & Hfr & Hu & Hst & Hr & Hs & ->). exists fr, u. auto 8.
Qed.

Lemma get_friend_requests_newest_first_witness :
  In (mkincoming 2 1 "alice" "Alice" 102) (get_friend_requests db_asked_again 2)
  /\ ~ In (mkincoming 1 1 "alice" "Alice" 100) (get_friend_requests db_asked_again 2).
Proof.
  destruct (get_friend_requests_newest_first db_asked_again 2) as [_ Hrows].
  split.
  - apply Hrows.
    exists (FriendRequest.mk 2 1 2 "pending" 102 102), alice.
    repeat split; cbn; auto.
  - intros Hin. apply Hrows in Hin as (fr & u & Hfr & _ & Hst & _ & _ & Hrow).
    destruct Hfr as [<-|[<-|[]]]; [discriminate Hst | discriminate Hrow].
Defined.

Lemma send_friend_request_outcome db now senderId receiverUsername :
  let after := send_friend_request db now senderId receiverUsername in
  (fst after = db /\ http_status (snd after) <> 201)
  \/ exists s receiver,
       present senderId = Some s
       /\ In receiver (users db) /\ Some (User.username receiver) = receiverUsername
       /\ s <> User.id receiver
       /\ checkFriendshipQuery db s (User.id receiver) = []
       /\ after = (fst (insertRequestQuery db now s (User.id receiver)), sent).
Proof.
  unfold send_friend_request.
  destruct (present senderId) as [s|] eqn:Hs; [|left; split; [reflexivity|discriminate]].
  destruct (present receiverUsername) as [n|] eqn:Hn;
    [|left; split; [reflexivity|discriminate]].
  destruct (select_user_by_username db n) as [|receiver rest] eqn:Hsel;
    [left; split; [reflexivity|discriminate]|].
  destruct (Z.eqb_spec s (User.id receiver)) as [_|Hne];
    [left; split; [reflexivity|discriminate]|].
  destruct (nonempty _) eqn:Hf; [left; split; [reflexivity|discriminate]|].
  apply nonempty_false in Hf.
  destruct (existing_request_reply _ _) as [reply|] eqn:Hreply.
  - left. split; [reflexivity|]. cbn [snd].
    unfold existing_request_reply in Hreply.
    destruct (checkRequestQuery db s (User.id receiver)) as [|r ?]; [discriminate|].
    destruct (_ =? "pending")%string;
      [destruct (_ =? s) | destruct (_ =? "accepted")%string];
      try discriminate; injection Hreply as <-; discriminate.
  - right. exists s, receiver. apply select_user_In in Hsel as [Hin Hname].
    apply present_Some in Hn as [-> _]. subst n. auto 8.
Qed.

(** X9.  [/send-friend-request] either changes nothing and answers with an
    error status, or answers 201 and has appended exactly one request: a
    pending one, from the sender to a registered user other than the sender
    who is not yet a friend.  A request of a user to themselves is never
    stored. *)
Theorem send_friend_request_all_or_nothing db now senderId receiverUsername :
  let after := send_friend_request db now senderId receiverUsername in
  (fst after = db /\ http_status (snd after) <> 201)
  \/ (snd after = sent
      /\ users (fst after) = users db /\ friendships (fst after) = friendships db
      /\ messages (fst after) = messages db
      /\ exists row receiver,
           friend_requests (fst after) = friend_requests db ++ [row]
           /\ FriendRequest.status row = "pending"
           /\ Some (FriendRequest.sender_id row) = senderId
           /\ In receiver (users db)
           /\ Some (User.username receiver) = receiverUsername
           /\ FriendRequest.receiver_id row = User.id receiver
           /\ FriendRequest.sender_id row <> FriendRequest.receiver_id row
           /\ checkFriendshipQuery db (FriendRequest.sender_id row)
                                   (FriendRequest.receiver_id row) = []).
Proof.
  intros after.
  destruct (send_friend_request_outcome db now senderId receiverUsername)
    as [Hsame | (s & receiver & Hs & Hin & Hname & Hne & Hnf & Heq)];
    [left; exact Hsame | right].
  subst after. rewrite Heq. cbn [fst snd insertRequestQuery].
  repeat (split; [reflexivity|]).
  eexists; exists receiver. split; [reflexivity|]. cbn.
  apply present_Some in Hs as [-> _]. auto 8.
Qed.

(** X10.  A request that was sent shows in the incoming list of its
    receiver, under the username and name of the registered user who sent
    it. *)
Theorem sent_request_is_listed db now senderId receiverUsername sender :
  In sender (users db) -> User.id sender = senderId ->
  snd (send_friend_request db now (Some senderId) (Some receiverUsername)) = sent ->
  exists receiver,
    In receiver (users db) /\ User.username receiver = receiverUsername
    /\ In (mkincoming (friend_requests_seq db) senderId (User.username sender)
                      (User.name sender) now)
          (get_friend_requests
             (fst (send_friend_request db now (Some senderId) (Some receiverUsername)))
             (User.id receiver)).
Proof.
  intros Hsender Hid Hsent.
  destruct (send_friend_request_outcome db now (Some senderId) (Some receiverUsername))
    as [[_ Hst] | (s & receiver & Hs & Hin & Hname & Hne & Hnf & Heq)].
  - rewrite Hsent in Hst. now contradiction Hst.
  - injection Hname as Hname. apply present_Some in Hs as [[= <-] _].
    exists receiver. split; [exact Hin|]. split; [exact Hname|].
    rewrite Heq. cbn [fst insertRequestQuery].
    apply get_friend_requests_In.
    eexists; exists sender. cbn. split; [apply in_or_app; right; now left|].
    subst senderId. auto 8.
Qed.

Lemma sent_request_is_listed_witness :
  In (mkincoming 1 1 "alice" "Alice" 100) (get_friend_requests db_asked 2).
Proof.
  destruct (sent_request_is_listed db0 100 1 "bob" alice (or_introl eq_refl) eq_refl
              eq_refl) as (receiver & Hin & Hname & Hlisted).
  destruct Hin as [<-|[<-|[<-|[]]]]; try discriminate Hname.
  exact Hlisted.
Defined.

Lemma decline_friend_request_requests db now requestId userId rid uid :
  present requestId = Some rid -> present userId = Some uid ->
  friend_requests (fst (decline_friend_request db now requestId userId))
  = map (declined_row now rid uid) (friend_requests db)
  /\ users (fst (decline_friend_request db now requestId userId)) = users db.
Proof.
  intros Hr Hu. unfold decline_friend_request, declineQuery. rewrite Hr, Hu.
  destruct (List.length _ =? 0)%nat; split; reflexivity.
Qed.

Lemma flat_map_nil {A B} (l : list A) : flat_map (fun _ : A => @nil B) l = [].
Proof. induction l; cbn; auto. Qed.

Lemma incoming_of_declined_row db now rid uid other fr :
  other <> uid ->
  flat_map (fun u =>
    if (FriendRequest.sender_id (declined_row now rid uid fr) =? User.id u)
       && (FriendRequest.receiver_id (declined_row now rid uid fr) =? other)
       && (FriendRequest.status (declined_row now rid uid fr) =? "pending")%string
    then [mkincoming (FriendRequest.id (declined_row now rid uid fr))
            (FriendRequest.sender_id (declined_row now rid uid fr))
            (User.username u) (User.name u)
            (FriendRequest.created_at (declined_row now rid uid fr))]
    else []) (users db)
  = flat_map (fun u =>
    if (FriendRequest.sender_id fr =? User.id u)
       && (FriendRequest.receiver_id fr =? other)
       && (FriendRequest.status fr =? "pending")%string
    then [mkincoming (FriendRequest.id fr) (FriendRequest.sender_id fr)
            (User.username u) (User.name u) (FriendRequest.created_at fr)]
    else []) (users db).
Proof.
  intros Hne. unfold declined_row.
  destruct (pending_for rid uid fr) eqn:Hp; [|reflexivity].
  unfold pending_for in Hp.
  apply andb_true_iff in Hp as [Hp _]. apply andb_true_iff in Hp as [_ Hr].
  apply Z.eqb_eq in Hr. cbn.
  assert (Hf : (FriendRequest.receiver_id fr =? other) = false)
    by (apply Z.eqb_neq; congruence).
  rewrite Hf. transitivity (@nil incoming_request); [|symmetry].
  all: erewrite flat_map_ext; [apply flat_map_nil|].
  all: intros u; cbn; now rewrite andb_false_r.
Qed.

(** X11.  Declining acts on the requests of the acting user only: after
    [/decline-friend-request] the request of that id is not in the incoming
    list of the acting user, whatever it was before, and the incoming list
    of every other user is what it was, so that nobody can decline a
    request addressed to somebody else. *)
Theorem decline_only_own_requests db now requestId userId :
  let after := fst (decline_friend_request db now requestId userId) in
  (forall rid uid row,
     present requestId = Some rid -> present userId = Some uid ->
     In row (get_friend_requests after uid) -> request_id row <> rid)
  /\ (forall other,
        Some other <> userId ->
        get_friend_requests after other = get_friend_requests db other).
Proof.
  intros after. subst after. split.
  - intros rid uid row Hr Hu Hin Heq.
    apply get_friend_requests_In in Hin as (fr & u & Hfr & _ & _ & Hrec & Hst & ->).
    destruct (decline_friend_request_requests db now _ _ _ _ Hr Hu) as [Hreqs _].
    rewrite Hreqs in Hfr. cbn in Heq.
    assert (Hq : In fr (filter (pending_for rid uid)
                          (map (declined_row now rid uid) (friend_requests db)))).
    { apply filter_In. split; [exact Hfr|]. unfold pending_for.
      rewrite Heq, Hrec, Hst, !Z.eqb_refl. reflexivity. }
    rewrite requestQuery_after_decline in Hq. destruct Hq.
  - intros other Hother.
    destruct (present requestId) as [rid|] eqn:Hr;
      [destruct (present userId) as [uid|] eqn:Hu|].
    + destruct (decline_friend_request_requests db now _ _ _ _ Hr Hu) as [Hreqs Husers].
      unfold get_friend_requests. rewrite Hreqs, Husers. f_equal.
      rewrite flat_map_concat_map, map_map, <- flat_map_concat_map.
      apply flat_map_ext. intros fr.
      apply incoming_of_declined_row.
      intros ->. apply present_Some in Hu as [Hu _]. congruence.
    + unfold decline_friend_request. now rewrite Hr, Hu.
    + unfold decline_friend_request. now rewrite Hr.
Qed.

Lemma decline_only_own_requests_witness :
  get_friend_requests (fst (decline_friend_request db_asked 101 (Some 1) (Some 3))) 2
  = get_friend_requests db_asked 2
  /\ ~ In (mkincoming 1 1 "alice" "Alice" 100)
          (get_friend_requests
             (fst (decline_friend_request db_asked 101 (Some 1) (Some 2))) 2).
Proof.
  split.
  - destruct (decline_only_own_requests db_asked 101 (Some 1) (Some 3)) as [_ Hothers].
    apply Hothers. discriminate.
  - destruct (decline_only_own_requests db_asked 101 (Some 1) (Some 2)) as [Hown _].
    intros Hin. now apply (Hown 1 2 _ eq_refl eq_refl Hin).
Defined.

(** ** Histories and delivery *)

(** X12.  The two users of a conversation read the same history: asking
    for the messages of [a] with [b] or of [b] with [a] gives the same rows
    in the same order. *)
Theorem get_messages_same_from_both_sides db a b :
  get_messages db a b = get_messages db b a.
Proof.
  unfold get_messages. f_equal. apply filter_ext. intros m.
  unfold in_conversation. apply either_direction_swap.
Qed.

Lemma get_messages_other_pair db row seq c d :
  in_conversation c d row = false ->
  get_messages (with_messages db (messages db ++ [row]) seq) c d = get_messages db c d.
Proof.
  intros Hout. unfold get_messages. cbn [messages with_messages].
  rewrite filter_app. cbn [filter]. rewrite Hout. now rewrite app_nil_r.
Qed.

Lemma get_messages_own_pair db row seq c d :
  in_conversation c d row = true ->
  Permutation (get_messages (with_messages db (messages db ++ [row]) seq) c d)
              (row :: get_messages db c d).
Proof.
  intros Hin. unfold get_messages. cbn [messages with_messages].
  rewrite filter_app. cbn [filter]. rewrite Hin.
  rewrite !(order_by_perm Message.created_at).
  rewrite Permutation_app_comm. reflexivity.
Qed.

(** X13.  A message that is stored enters the history of its sender and
    receiver, as one more row, and the history of no other pair of users:
    those read what they read before. *)
Theorem chat_message_history srv now socket msg senderId receiverId values :
  present (ChatEvent.senderId msg) = Some senderId ->
  present (ChatEvent.receiverId msg) = Some receiverId ->
  insert_values msg = Some values ->
  let after := pool (fst (chat_message srv now true socket msg)) in
  Permutation (get_messages after senderId receiverId)
              (saved_row srv now senderId receiverId values
                 :: get_messages (pool srv) senderId receiverId)
  /\ forall c d,
       either_direction senderId receiverId c d = false ->
       get_messages after c d = get_messages (pool srv) c d.
Proof.
  intros Hs Hr Hv after. subst after.
  rewrite (chat_message_saved srv now socket msg _ _ _ Hs Hr Hv). cbn [fst pool].
  destruct values as [[content message_type] image_data]. split.
  - apply get_messages_own_pair. unfold in_conversation, saved_row. cbn.
    apply either_direction_true. auto.
  - intros c d Hout. apply get_messages_other_pair.
    unfold in_conversation, saved_row. cbn. exact Hout.
Qed.

Lemma chat_message_history_witness :
  let after := pool (fst (chat_message srv0 7 true 10
                            (ChatEvent.mk (Some 1) (Some 2) (Some "hi bob") None None))) in
  get_messages after 1 3 = [] /\ get_messages after 3 2 = [].
Proof.
  destruct (chat_message_history srv0 7 10
              (ChatEvent.mk (Some 1) (Some 2) (Some "hi bob") None None)
              1 2 (Some "hi bob", "text", None) eq_refl eq_refl eq_refl) as [_ Hothers].
  split; [apply (Hothers 1 3) | apply (Hothers 3 2)]; reflexivity.
Defined.

(** On an event with an object as payload the handler emits nothing it has
    not stored. *)
Lemma chat_message_emits_only_stored srv now store_ok socket msg :
  let run := chat_message srv now store_ok socket msg in
  sockets (fst run) = sockets srv
  /\ (store_ok = false -> fst run = srv)
  /\ forall s ev p,
       In (socket_emit s ev p) (snd run) ->
       store_ok = true /\ In (pool_query p) (snd run)
       /\ In p (messages (pool (fst run))).
Proof.
  unfold chat_message.
  destruct (present (ChatEvent.senderId msg)) as [senderId|];
    [destruct (present (ChatEvent.receiverId msg)) as [receiverId|];
     [destruct (insert_values msg) as [[[content message_type] image_data]|];
      [destruct store_ok|]|]|].
  2-5: (split; [reflexivity|]; split; [reflexivity|];
        intros s ev p [H|[H|[]]]; discriminate H).
  cbn. split; [reflexivity|]. split; [discriminate|].
  intros s ev p [H|[H|H]]; try discriminate H.
  apply in_map_iff in H as [s' [[= -> -> ->] Hin]].
  split; [reflexivity|]. split; [auto|].
  apply in_or_app. right. now left.
Qed.

(** X14.  The listener emits nothing it has not stored.  Called without
    payload it throws before the [try] block, having stored and emitted
    nothing.  Called with a payload it returns, and then, whether or not
    the store accepts the insert: every emit of the run carries a row that
    the same run inserted and that is in the [messages] table afterwards,
    a failed insert leaves the state as it was, and the connected sockets
    are the same as before. *)
Theorem on_chat_message_emits_only_stored srv now store_ok socket payload :
  match on_chat_message srv now store_ok socket payload with
  | thrown exception trace =>
      payload = None /\ exception = "TypeError"
      /\ trace = [console_log "Received message:"]
  | returned after trace =>
      (exists msg, payload = Some msg
                   /\ (after, trace) = chat_message srv now store_ok socket msg)
      /\ sockets after = sockets srv
      /\ (store_ok = false -> after = srv)
      /\ forall s ev p,
           In (socket_emit s ev p) trace ->
           store_ok = true /\ In (pool_query p) trace
           /\ In p (messages (pool after))
  end.
Proof.
  destruct payload as [msg|]; cbn [on_chat_message]; [|auto].
  split.
  - exists msg. split; [reflexivity|].
    now destruct (chat_message srv now store_ok socket msg).
  - apply chat_message_emits_only_stored.
Qed.

(** X15.  An image message keeps its image only: when the event is marked
    as an image and carries image data, the stored and emitted row has type
    ["image"], that image data and no text content, whatever [content] the
    event came with. *)
Theorem chat_message_image_drops_content srv now socket msg senderId receiverId imageData :
  present (ChatEvent.senderId msg) = Some senderId ->
  present (ChatEvent.receiverId msg) = Some receiverId ->
  ChatEvent.messageType msg = Some "image" ->
  present (ChatEvent.imageData msg) = Some imageData ->
  let row := Message.mk (messages_seq (pool srv)) senderId receiverId None "image"
                        (Some imageData) now in
  messages (pool (fst (chat_message srv now true socket msg)))
  = messages (pool srv) ++ [row]
  /\ forall s, In s (sockets srv) ->
       In (socket_emit s "chat message" row) (snd (chat_message srv now true socket msg)).
Proof.
  intros Hs Hr Hty Hd row. subst row.
  assert (Hv : insert_values msg = Some (None, "image", Some imageData)).
  { unfold insert_values, image_payload. now rewrite Hty, Hd. }
  rewrite (chat_message_saved srv now socket msg _ _ _ Hs Hr Hv).
  split; [reflexivity|].
  intros s Hin. right. right. apply in_map_iff. exists s. auto.
Qed.

Lemma chat_message_image_drops_content_witness :
  messages (pool (fst (chat_message srv0 7 true 10
     (ChatEvent.mk (Some 1) (Some 2) (Some "look") (Some "image") (Some "data:image/png")))))
  = [Message.mk 1 1 2 None "image" (Some "data:image/png") 7].
Proof.
  apply (chat_message_image_drops_content srv0 7 10
           (ChatEvent.mk (Some 1) (Some 2) (Some "look") (Some "image")
                         (Some "data:image/png"))
           1 2 "data:image/png" eq_refl eq_refl eq_refl eq_refl).
Defined.

(** ** Configuration *)

Lemma config_missing_env value :
  config_missing (from_env value) = false <-> exists s, value = Some s /\ s <> "".
Proof.
  unfold config_missing. destruct (present value) as [s|] eqn:Hp.
  - apply present_Some in Hp as [-> Hs]. apply truthy_string_iff in Hs.
    split; [eauto | reflexivity].
  - split; [discriminate|]. intros [s [-> Hs]].
    apply truthy_string_iff in Hs. rewrite (present_truthy _ Hs) in Hp. discriminate Hp.
Qed.

(** X16.  The start-up check of the database settings is silent exactly
    when the five variables [PGUSER], [PGHOST], [PGDATABASE], [PGPASSWORD]
    and [PGPORT] are all set to a non-empty value; it never warns about the
    [ssl] entry. *)
Theorem config_warnings_silent env :
  (config_warnings (dbConfig env) = [] <->
   Forall (fun variable => exists s, env variable = Some s /\ s <> "")
          ["PGUSER"; "PGHOST"; "PGDATABASE"; "PGPASSWORD"; "PGPORT"])
  /\ ~ In "Missing environment variable for database: ssl"
          (config_warnings (dbConfig env)).
Proof.
  unfold config_warnings, dbConfig. cbn [flat_map fst snd].
  pose proof (config_missing_env (env "PGUSER")) as H1.
  pose proof (config_missing_env (env "PGHOST")) as H2.
  pose proof (config_missing_env (env "PGDATABASE")) as H3.
  pose proof (config_missing_env (env "PGPASSWORD")) as H4.
  pose proof (config_missing_env (env "PGPORT")) as H5.
  change (config_missing (ssl_options false)) with false.
  split.
  - split.
    + intros Hnil.
      destruct (config_missing (from_env (env "PGUSER"))); [discriminate Hnil|].
      destruct (config_missing (from_env (env "PGHOST"))); [discriminate Hnil|].
      destruct (config_missing (from_env (env "PGDATABASE"))); [discriminate Hnil|].
      destruct (config_missing (from_env (env "PGPASSWORD"))); [discriminate Hnil|].
      destruct (config_missing (from_env (env "PGPORT"))); [discriminate Hnil|].
      repeat constructor; [apply H1|apply H2|apply H3|apply H4|apply H5]; reflexivity.
    + intros Hall.
      inversion Hall as [|? ? A1 Hall1]; subst.
      inversion Hall1 as [|? ? A2 Hall2]; subst.
      inversion Hall2 as [|? ? A3 Hall3]; subst.
      inversion Hall3 as [|? ? A4 Hall4]; subst.
      inversion Hall4 as [|? ? A5 _]; subst.
      apply H1 in A1. apply H2 in A2. apply H3 in A3. apply H4 in A4. apply H5 in A5.
      now rewrite A1, A2, A3, A4, A5.
  - destruct (config_missing (from_env (env "PGUSER")));
    destruct (config_missing (from_env (env "PGHOST")));
    destruct (config_missing (from_env (env "PGDATABASE")));
    destruct (config_missing (from_env (env "PGPASSWORD")));
    destruct (config_missing (from_env (env "PGPORT")));
    cbn; intuition discriminate.
Qed.

(** ** Asking twice *)

Lemma checkRequestQuery_after_insert db now p1 p2 :
  checkRequestQuery db p1 p2 = [] ->
  checkRequestQuery (fst (insertRequestQuery db now p1 p2)) p1 p2
  = [FriendRequest.mk (friend_requests_seq db) p1 p2 "pending" now now].
Proof.
  intros Hnone. unfold checkRequestQuery in *. cbn.
  rewrite filter_app, Hnone. cbn. unfold either_direction. cbn.
  now rewrite !Z.eqb_refl.
Qed.

(** X17.  While a first request between two users is pending, neither of
    them can send another: the sender who asks again is told that the
    request was already sent, the receiver who asks in return is told that
    the other user has already sent one, and in both cases nothing is
    stored. *)
Theorem send_friend_request_twice
    db now now' senderId receiverUsername myUsername me receiver rest rest' :
  truthy senderId = true -> truthy receiverUsername = true ->
  truthy myUsername = true -> truthy (User.id receiver) = true ->
  select_user_by_username db receiverUsername = receiver :: rest ->
  select_user_by_username db myUsername = me :: rest' ->
  User.id me = senderId -> User.id receiver <> senderId ->
  checkFriendshipQuery db senderId (User.id receiver) = [] ->
  checkRequestQuery db senderId (User.id receiver) = [] ->
  let asked := fst (send_friend_request db now (Some senderId) (Some receiverUsername)) in
  send_friend_request asked now' (Some senderId) (Some receiverUsername)
  = (asked, mkres 409 (error "Friend request already sent to this user"))
  /\ send_friend_request asked now' (Some (User.id receiver)) (Some myUsername)
     = (asked, mkres 409 (error
          "This user has already sent you a friend request. Please check your requests.")).
Proof.
  intros Hs Hn Hm Hr Hsel Hme Hid Hne Hnf Hnone asked. subst asked.
  rewrite (send_friend_request_checked db now senderId receiverUsername receiver rest)
    by assumption.
  rewrite Hnone. cbn [existing_request_reply fst].
  split.
  - rewrite (send_friend_request_checked _ _ _ _ receiver rest) by assumption.
    rewrite (checkRequestQuery_after_insert _ _ _ _ Hnone).
    rewrite existing_request_reply_pending by reflexivity.
    cbn. now rewrite Z.eqb_refl.
  - rewrite (send_friend_request_checked _ _ _ _ me rest'); try assumption.
    + rewrite Hid, checkRequestQuery_swap.
      rewrite (checkRequestQuery_after_insert _ _ _ _ Hnone).
      rewrite existing_request_reply_pending by reflexivity.
      cbn. apply Z.eqb_neq in Hne. rewrite Z.eqb_sym in Hne. now rewrite Hne.
    + congruence.
    + rewrite Hid. rewrite <- Hnf. apply (checkFriendshipQuery_swap db).
Qed.

Lemma send_friend_request_twice_witness :
  send_friend_request db_asked 101 (Some 1) (Some "bob")
  = (db_asked, mkres 409 (error "Friend request already sent to this user"))
  /\ send_friend_request db_asked 101 (Some 2) (Some "alice")
     = (db_asked, mkres 409 (error
          "This user has already sent you a friend request. Please check your requests.")).
Proof.
  apply (send_friend_request_twice db0 100 101 1 "bob" "alice" alice bob [] []);
    try reflexivity.
  discriminate.
Defined.
